(** * The head runtime of jina: control plane, data plane and readiness probe

    A shallow embedding of [jina/peapods/runtimes/head/__init__.py]
    ([HeadRuntime]) and the properties its specification states about it.

    Python's exceptions are an explicit [Result]; the coroutine methods of
    [HeadRuntime] thread the mutable part of the runtime (the connection
    pool, the cancel event, the logger) through a small state-and-exception
    monad.  What the module imports but does not define (the gRPC connection
    pool, asyncio's scheduler, the wall clock) is an interface or an oracle
    of the model. *)

From Stdlib Require Import ZArith QArith Qround List Lia SpecFloat.
From stdpp Require Import base gmap sets list strings pretty.

Open Scope string_scope.
Open Scope list_scope.
Open Scope Z_scope.

(** ** Exceptions and results *)

(** The exceptions the module raises, catches or lets through.
    [OtherException] stands for any other class that derives from
    [Exception], and [BaseExceptionOnly] for a class that derives from
    [BaseException] and not from [Exception] ([asyncio.CancelledError],
    [KeyboardInterrupt], [SystemExit]): [except (RuntimeError, Exception)]
    does not catch it. *)
Inductive exn : Type :=
| RuntimeTerminated
| RuntimeError (msg : string)
| RpcError (details : string)
| IndexError
| AttributeError (attr : string)
| OtherException (cls : string)
| BaseExceptionOnly (cls : string).

Inductive Result (A : Type) : Type :=
| Ok (a : A)
| Raise (e : exn).
Arguments Ok {A} a.
Arguments Raise {A} e.

Definition is_RpcError (e : exn) : bool :=
  match e with RpcError _ => true | _ => false end.

(** [[await t for t in ts]]: the outcomes are awaited from left to right and
    the first exception leaves the comprehension. *)
Fixpoint await_all {A : Type} (ts : list (Result A)) : Result (list A) :=
  match ts with
  | [] => Ok []
  | Ok a :: ts' =>
      match await_all ts' with
      | Ok l => Ok (a :: l)
      | Raise e => Raise e
      end
  | Raise e :: _ => Raise e
  end.

(** ** The state-and-exception monad of the coroutines *)

Definition Run (S A : Type) : Type := S -> Result A * S.

Definition ret {S A : Type} (a : A) : Run S A := fun s => (Ok a, s).

Definition raise {S A : Type} (e : exn) : Run S A := fun s => (Raise e, s).

Definition bind {S A B : Type} (m : Run S A) (k : A -> Run S B) : Run S B :=
  fun s =>
    match m s with
    | (Ok a, s') => k a s'
    | (Raise e, s') => (Raise e, s')
    end.

Definition lift {S A : Type} (r : Result A) : Run S A := fun s => (r, s).

Definition gets {S A : Type} (f : S -> A) : Run S A := fun s => (Ok (f s), s).

Definition modify {S : Type} (f : S -> S) : Run S unit := fun s => (Ok tt, f s).

Notation "x <- c1 ;; c2" := (bind c1 (fun x => c2))
  (at level 100, c1 at next level, right associativity).
Notation "c1 ;;; c2" := (bind c1 (fun _ => c2))
  (at level 100, right associativity).

(** [for x in xs: body(x)] *)
Fixpoint for_each {S A : Type} (xs : list A) (body : A -> Run S unit) : Run S unit :=
  match xs with
  | [] => ret tt
  | x :: xs' => body x ;;; for_each xs' body
  end.

(** ** Messages *)

Record Document : Type := mkDocument {
  doc_id : string;
  doc_content : string
}.

(** A protobuf [RelatedEntity]; [shard_id] is an optional field. *)
Record RelatedEntity : Type := mkRelatedEntity {
  address : string;
  port : Z;
  shard_id_field : option Z
}.

(** [relatedEntity.HasField('shard_id')] *)
Definition HasField_shard_id (e : RelatedEntity) : bool :=
  match shard_id_field e with Some _ => true | None => false end.

(** [relatedEntity.shard_id]: reading an optional protobuf field that is not
    set gives the default of its type. *)
Definition shard_id (e : RelatedEntity) : Z :=
  match shard_id_field e with Some s => s | None => 0 end.

Inductive Request : Type :=
| ControlRequest (command : string) (relatedEntities : list RelatedEntity)
| DataRequest (docs : list Document).

Record Envelope : Type := mkEnvelope {
  request_id : string;
  request_type : string
}.

Record Message : Type := mkMessage {
  envelope : Envelope;
  request : Request
}.

(** Attribute reads on a request: an attribute of the other kind of request
    is an [AttributeError]. *)
Definition command (r : Request) : Result string :=
  match r with
  | ControlRequest c _ => Ok c
  | DataRequest _ => Raise (AttributeError "command")
  end.

Definition relatedEntities (r : Request) : Result (list RelatedEntity) :=
  match r with
  | ControlRequest _ es => Ok es
  | DataRequest _ => Raise (AttributeError "relatedEntities")
  end.

Definition docs (r : Request) : Result (list Document) :=
  match r with
  | DataRequest ds => Ok ds
  | ControlRequest _ _ => Raise (AttributeError "docs")
  end.

(** [ControlMessage(command)] *)
Definition ControlMessage (cmd : string) : Message :=
  {| envelope := {| request_id := ""; request_type := "ControlRequest" |};
     request := ControlRequest cmd [] |}.

(** Modelled from the spec: [DataRequestHandler.replace_docs(msg, docs)],
    which is not part of this module.  The message keeps its envelope and
    its document sequence is replaced by [ds]. *)
Definition replace_docs (msg : Message) (ds : list Document) : Result Message :=
  match request msg with
  | DataRequest _ => Ok {| envelope := envelope msg; request := DataRequest ds |}
  | ControlRequest _ _ => Raise (AttributeError "docs")
  end.

(** ** The connection pool, as the head uses it *)

Inductive PollingType : Type := ANY | ALL.

(** The part of [GrpcConnectionPool] that [HeadRuntime] calls on an
    instance.  [send_messages] gives the tasks it created, each with the
    outcome it will have once awaited. *)
Class ConnectionPool (P : Type) : Type := {
  add_connection : string -> string -> option Z -> P -> P;
  remove_connection : string -> string -> option Z -> P -> P;
  send_messages_once : list Message -> string -> P -> Result Message;
  send_messages : list Message -> string -> PollingType -> P -> list (Result Message)
}.

(** ** HeadRuntime *)

(** What [__init__] fixes for the life of the runtime.  [as_completed] is
    the order in which the event loop completes a list of tasks. *)
Record HeadRuntime : Type := mkHeadRuntime {
  name : string;
  uses_before_address : option string;
  uses_after_address : option string;
  polling : PollingType;
  quiet_error : bool;
  as_completed : list (Result Message) -> list (Result Message)
}.

(** The attributes of [args] that the runtime reads; [args_polling] is
    [None] when [args] has no attribute [polling]. *)
Record Args : Type := mkArgs {
  args_name : string;
  args_uses_before_address : option string;
  args_uses_after_address : option string;
  args_polling : option PollingType;
  args_quiet_error : bool
}.

(** A record of [self.logger.error]: the exception whose [repr] opens the
    text ([None] for the empty text of [--quiet-error]) and [exc_info]. *)
Record LogRecord : Type := mkLogRecord {
  logged : option exn;
  exc_info : bool
}.

Record HeadState (P : Type) : Type := mkHeadState {
  connection_pool : P;
  is_cancel : bool;
  logger : list LogRecord
}.
Arguments mkHeadState {P} _ _ _.
Arguments connection_pool {P} _.
Arguments is_cancel {P} _.
Arguments logger {P} _.

(** Truth value of an [Optional[str]]: [None] and [''] are false. *)
Definition truthy_str (o : option string) : bool :=
  match o with
  | None => false
  | Some s => negb (String.eqb s "")
  end.

(** [f'{relatedEntity.address}:{relatedEntity.port}'] *)
Definition connection_string (e : RelatedEntity) : string :=
  address e +:+ ":" +:+ pretty (port e).

Definition no_response_error (self : HeadRuntime) : exn :=
  RuntimeError ("Head " +:+ name self +:+
    " did not receive a response when sending message to worker peas").

(** [xs[0]] *)
Definition item0 {A : Type} (xs : list A) : Result A :=
  match xs with
  | x :: _ => Ok x
  | [] => Raise IndexError
  end.

(** [[d for r in rs for d in getattr(r, 'docs')]] *)
Fixpoint flatten_docs (rs : list Request) : Result (list Document) :=
  match rs with
  | [] => Ok []
  | r :: rs' =>
      match docs r with
      | Ok ds =>
          match flatten_docs rs' with
          | Ok l => Ok (ds ++ l)
          | Raise e => Raise e
          end
      | Raise e => Raise e
      end
  end.

Section Head.
Context {P : Type} `{ConnectionPool P}.
Variable self : HeadRuntime.

Definition with_pool (f : P -> P) : Run (HeadState P) unit :=
  modify (fun st =>
    {| connection_pool := f (connection_pool st);
       is_cancel := is_cancel st;
       logger := logger st |}).

(** [HeadRuntime.__init__], for the attributes and the registrations that
    this module sets: the pre- and the post-stage are registered when they
    are configured, and the polling is [ANY] when [args] has none.
    [super().__init__(args, cancel_event, **kwargs)] is the base class's:
    the cancel event and the logger come from it and are not built here.
    [order] is the order in which the event loop of the runtime completes
    tasks. *)
Definition init (args : Args) (order : list (Result Message) -> list (Result Message))
    (connection_pool : P) : HeadRuntime * P :=
  let pool1 :=
    if truthy_str (args_uses_before_address args)
    then add_connection "uses_before"
           (match args_uses_before_address args with Some a => a | None => "" end)
           None connection_pool
    else connection_pool in
  let pool2 :=
    if truthy_str (args_uses_after_address args)
    then add_connection "uses_after"
           (match args_uses_after_address args with Some a => a | None => "" end)
           None pool1
    else pool1 in
  ({| name := args_name args;
      uses_before_address := args_uses_before_address args;
      uses_after_address := args_uses_after_address args;
      polling := match args_polling args with Some p => p | None => ANY end;
      quiet_error := args_quiet_error args;
      as_completed := order |},
   pool2).

(** [_handle_control_request]; the debug logging of its first two lines
    has no effect on the state modelled here. *)
Definition _handle_control_request (msg : Message) : Run (HeadState P) Message :=
  cmd <- lift (command (request msg)) ;;
  if String.eqb cmd "TERMINATE" then raise RuntimeTerminated
  else if String.eqb cmd "ACTIVATE" then
    es <- lift (relatedEntities (request msg)) ;;
    (for_each es (fun relatedEntity =>
       with_pool (add_connection "worker" (connection_string relatedEntity)
                    (if HasField_shard_id relatedEntity
                     then Some (shard_id relatedEntity) else None))) ;;;
     ret msg)
  else if String.eqb cmd "DEACTIVATE" then
    es <- lift (relatedEntities (request msg)) ;;
    (for_each es (fun relatedEntity =>
       with_pool (remove_connection "worker" (connection_string relatedEntity)
                    (Some (shard_id relatedEntity)))) ;;;
     ret msg)
  else ret msg.

(** The first half of [_handle_data_requests]: the pre-stage, the fan-out
    and the join, which give [worker_results]. *)
Definition collect_worker_results (messages : list Message)
  : Run (HeadState P) (list Message) :=
  messages1 <-
    (if truthy_str (uses_before_address self)
     then
       pool <- gets connection_pool ;;
       m <- lift (send_messages_once messages "uses_before" pool) ;;
       ret [m]
     else ret messages) ;;
  pool <- gets connection_pool ;;
  let worker_send_tasks := send_messages messages1 "worker" (polling self) pool in
  lift (await_all (as_completed self worker_send_tasks)).

Definition _handle_data_requests (messages : list Message) : Run (HeadState P) Message :=
  worker_results <- collect_worker_results messages ;;
  if truthy_str (uses_after_address self) then
    pool <- gets connection_pool ;;
    lift (send_messages_once worker_results "uses_after" pool)
  else if (1 <? length worker_results)%nat then
    let partial_requests := map request worker_results in
    result <- lift (flatten_docs (rev partial_requests)) ;;
    response_message <- lift (item0 worker_results) ;;
    lift (replace_docs response_message result)
  else if (length worker_results =? 1)%nat then
    lift (item0 worker_results)
  else raise (no_response_error self).

(** The loop of the control branch of [_handle_messages]. *)
Fixpoint control_loop (last_response : option Message) (messages : list Message)
  : Run (HeadState P) (option Message) :=
  match messages with
  | [] => ret last_response
  | message :: rest =>
      r <- _handle_control_request message ;;
      control_loop (Some r) rest
  end.

Definition _handle_messages (messages : list Message) : Run (HeadState P) (option Message) :=
  m0 <- lift (item0 messages) ;;
  if negb (String.eqb (request_type (envelope m0)) "DataRequest")
  then control_loop None messages
  else r <- _handle_data_requests messages ;; ret (Some r).

(** [HeadRuntime.cancel(self.is_cancel)] sets the cancel event. *)
Definition cancel (st : HeadState P) : HeadState P :=
  {| connection_pool := connection_pool st; is_cancel := true; logger := logger st |}.

Definition logger_error (ex : exn) (st : HeadState P) : HeadState P :=
  {| connection_pool := connection_pool st;
     is_cancel := is_cancel st;
     logger := logger st ++
       [ {| logged := if negb (quiet_error self) then Some ex else None;
            exc_info := negb (quiet_error self) |} ] |}.

(** [Call]: [Ok None] is the [None] a coroutine returns when it falls off
    its end, which is what happens after [RuntimeTerminated].  An exception
    that neither [except] clause catches leaves [Call] as it came. *)
Definition Call (messages : list Message) : Run (HeadState P) (option Message) :=
  fun st =>
    match _handle_messages messages st with
    | (Ok r, st') => (Ok r, st')
    | (Raise RuntimeTerminated, st') => (Ok None, cancel st')
    | (Raise (BaseExceptionOnly cls), st') => (Raise (BaseExceptionOnly cls), st')
    | (Raise ex, st') => (Raise ex, logger_error ex st')
    end.

(** Processing the messages one by one, each on the state the one before it
    left. *)
Definition process_each (messages : list Message) (st : HeadState P) : HeadState P :=
  fold_left (fun s m => snd (_handle_control_request m s)) messages st.

End Head.

(** ** The Connection Registry *)

Abbreviation Endpoints := (gset (string * string * option Z)).

(** The network behind the registry: what a single-destination send and a
    fan-out give for the endpoints registered at the time of the call. *)
Record Network : Type := mkNetwork {
  reply_once : Endpoints -> list Message -> string -> Result Message;
  reply_fanout : Endpoints -> list Message -> string -> PollingType -> list (Result Message)
}.

(** Modelled from the spec: [GrpcConnectionPool], which is not part of this
    module.  The registry is a set of [(role, address, shard_id?)]
    registrations: adding one that is present changes nothing, removing one
    that is absent changes nothing and does not raise. *)
Record GrpcConnectionPool : Type := mkGrpcConnectionPool {
  connections : Endpoints;
  network : Network
}.

#[export] Instance GrpcConnectionPool_pool : ConnectionPool GrpcConnectionPool := {
  add_connection pod addr sid p :=
    {| connections := {[ (pod, addr, sid) ]} ∪ connections p; network := network p |};
  remove_connection pod addr sid p :=
    {| connections := connections p ∖ {[ (pod, addr, sid) ]}; network := network p |};
  send_messages_once msgs pod p := reply_once (network p) (connections p) msgs pod;
  send_messages msgs pod polling p := reply_fanout (network p) (connections p) msgs pod polling
}.

(** The registrations under role [worker]. *)
Definition workers (p : GrpcConnectionPool) : Endpoints :=
  filter (fun ep => ep.1.1 = "worker") (connections p).

(** ** The readiness probe *)

(** A Python number: an [int], or a [float], which is an IEEE 754 binary64
    ([spec_float], with the operations at precision 53 and [emax] 1024). *)
Inductive number : Type :=
| PyInt (z : Z)
| PyFloat (f : spec_float).

(** [float(z)], the conversion of an int that meets a float in an
    operation. *)
Definition float_of_int (z : Z) : spec_float := binary_normalize 53 1024 z 0 false.

(** Truth value of a number: zero is false, [0.0] and [-0.0] included; a NaN
    is true. *)
Definition truthy_number (x : number) : bool :=
  match x with
  | PyInt z => negb (z =? 0)
  | PyFloat (S754_zero _) => false
  | PyFloat _ => true
  end.

(** [1000000000 * x]: exact on an int; on a float, the product of floats,
    rounded to the nearest float. *)
Definition times_1000000000 (x : number) : number :=
  match x with
  | PyInt z => PyInt (1000000000 * z)
  | PyFloat f => PyFloat (SFmul 53 1024 (float_of_int 1000000000) f)
  end.

(** [z < x] for an int [z]: an int and a float are compared by their exact
    values, and nothing is below a NaN. *)
Definition int_lt (z : Z) (x : number) : bool :=
  match x with
  | PyInt y => z <? y
  | PyFloat (S754_zero _) => z <? 0
  | PyFloat (S754_infinity s) => negb s
  | PyFloat S754_nan => false
  | PyFloat (S754_finite s m e) =>
      let v := if s then Z.neg m else Z.pos m in
      if 0 <=? e then z <? v * 2 ^ e else z * 2 ^ (- e) <? v
  end.

(** The world of the probe.  [clock] is the wall clock in nanoseconds and
    [naps] the sleeps asked for so far, the latest first.  The rest is what
    the world does when the clock shows a given time: [lag] is the time
    that passes after a reading of the clock, [oversleep] the time by which
    a sleep exceeds what it was asked for, and [send_message_sync] the
    outcome of [GrpcConnectionPool.send_message_sync] with the time the
    blocking call takes. *)
Record World : Type := mkWorld {
  clock : Z;
  naps : list Q;
  lag : Z -> N;
  oversleep : Z -> N;
  send_message_sync : Z -> Message -> string -> Result Message * N
}.

(** The world [ns] nanoseconds later. *)
Definition later (ns : Z) (w : World) : World :=
  {| clock := clock w + ns;
     naps := naps w;
     lag := lag w;
     oversleep := oversleep w;
     send_message_sync := send_message_sync w |}.

(** [time.time_ns()] *)
Definition time_ns (w : World) : Z * World :=
  (clock w, later (Z.of_N (lag w (clock w))) w).

(** [time.sleep(secs)]: the sleep lasts what it was asked for, or longer. *)
Definition time_sleep (secs : Q) (w : World) : World :=
  {| clock := clock w + Qfloor (secs * 1000000000)%Q + Z.of_N (oversleep w (clock w));
     naps := secs :: naps w;
     lag := lag w;
     oversleep := oversleep w;
     send_message_sync := send_message_sync w |}.

Definition is_ready (ctrl_address : string) (w : World) : Result bool * World :=
  let '(r, took) := send_message_sync w (clock w) (ControlMessage "STATUS") ctrl_address in
  let w' := later (Z.of_N took) w in
  match r with
  | Ok _ => (Ok true, w')
  | Raise (RpcError _) => (Ok false, w')
  | Raise e => (Raise e, w')
  end.

(** The condition of the [while] loop:
    [timeout_ns is None or time.time_ns() - now < timeout_ns].  The clock
    is read when [timeout_ns] is not [None]. *)
Definition loop_condition (timeout_ns : option number) (now : Z) (w : World)
  : bool * World :=
  match timeout_ns with
  | None => (true, w)
  | Some t => let '(t1, w1) := time_ns w in (int_lt (t1 - now) t, w1)
  end.

(** The [while] loop of [wait_for_ready_or_shutdown], run for at most
    [fuel] tests of its condition: [None] says that the loop is still
    running after them. *)
Fixpoint wait_loop (fuel : nat) (timeout_ns : option number) (now : Z)
    (shutdown_event : Z -> bool) (ctrl_address : string) (w : World)
  : option (Result bool) * World :=
  match fuel with
  | O => (None, w)
  | S fuel' =>
      match loop_condition timeout_ns now w with
      | (true, w1) =>
          if shutdown_event (clock w1) then (Some (Ok true), w1)
          else
            match is_ready ctrl_address w1 with
            | (Ok true, w2) => (Some (Ok true), w2)
            | (Ok false, w2) =>
                wait_loop fuel' timeout_ns now shutdown_event ctrl_address
                  (time_sleep (1 # 10) w2)
            | (Raise e, w2) => (Some (Raise e), w2)
            end
      | (false, w1) => (Some (Ok false), w1)
      end
  end.

(** [1000000000 * timeout if timeout else None] *)
Definition timeout_ns_of (timeout : option number) : option number :=
  match timeout with
  | Some t => if truthy_number t then Some (times_1000000000 t) else None
  | None => None
  end.

Definition wait_for_ready_or_shutdown (fuel : nat) (timeout : option number)
    (shutdown_event : Z -> bool) (ctrl_address : string) (w : World)
  : option (Result bool) * World :=
  let timeout_ns := timeout_ns_of timeout in
  let '(now, w0) := time_ns w in
  wait_loop fuel timeout_ns now shutdown_event ctrl_address w0.

(** ** Vocabulary of the statements *)

(** A message that carries a control command, which is not [TERMINATE]. *)
Definition plain_command (m : Message) : Prop :=
  exists c es, request m = ControlRequest c es /\ c <> "TERMINATE".

(** A Control batch: not empty, and its first envelope is not of Data type. *)
Definition control_batch (messages : list Message) : Prop :=
  exists m0 rest, messages = m0 :: rest /\ request_type (envelope m0) <> "DataRequest".

(** A Data batch: its first envelope is of Data type. *)
Definition data_batch (messages : list Message) : Prop :=
  exists m0 rest, messages = m0 :: rest /\ request_type (envelope m0) = "DataRequest".

(** No [uses_after] endpoint is configured. *)
Definition no_uses_after (self : HeadRuntime) : Prop :=
  truthy_str (uses_after_address self) = false.

(** The document sequence of a message ([[]] for a control message). *)
Definition docs_of (m : Message) : list Document :=
  match request m with
  | DataRequest ds => ds
  | ControlRequest _ _ => []
  end.

Definition is_data (m : Message) : Prop :=
  exists ds, request m = DataRequest ds.

(** [s] occurs in [t]. *)
Definition mentions (t s : string) : Prop :=
  exists pre post, t = pre +:+ s +:+ post.

(** What the control loop returns after the messages [ms], when [r] is the last
    response so far. *)
Definition last_of (r : option Message) (ms : list Message) : option Message :=
  fold_left (fun _ m => Some m) ms r.

(** The outcome of the STATUS probe sent at the time of [w], and the
    nanoseconds it takes. *)
Definition probe (ctrl_address : string) (w : World) : Result Message :=
  fst (send_message_sync w (clock w) (ControlMessage "STATUS") ctrl_address).

Definition probe_took (ctrl_address : string) (w : World) : N :=
  snd (send_message_sync w (clock w) (ControlMessage "STATUS") ctrl_address).

(** A poll at which neither condition holds: the shutdown signal is not set
    and the probe fails with [RpcError]. *)
Definition poll_fails (shutdown_event : Z -> bool) (ctrl_address : string) (w : World) : Prop :=
  shutdown_event (clock w) = false
  /\ exists details, probe ctrl_address w = Raise (RpcError details).

(** A poll at which one of the conditions holds. *)
Definition poll_succeeds (shutdown_event : Z -> bool) (ctrl_address : string) (w : World) : Prop :=
  shutdown_event (clock w) = true
  \/ exists m, probe ctrl_address w = Ok m.

(** The outcome of the test of the loop condition in the world [w], and the
    world in which the poll takes place when the test has passed. *)
Definition test_passes (timeout_ns : option number) (now : Z) (w : World) : bool :=
  fst (loop_condition timeout_ns now w).

Definition after_test (timeout_ns : option number) (w : World) : World :=
  match timeout_ns with
  | None => w
  | Some _ => snd (time_ns w)
  end.

(** The world in which the loop tests its condition again, after a test in
    the world [w] that passed and a poll that failed: the test, the probe,
    then the sleep. *)
Definition next_test (timeout_ns : option number) (ctrl_address : string) (w : World) : World :=
  time_sleep (1 # 10) (snd (is_ready ctrl_address (after_test timeout_ns w))).

(** The world of the test number [k] of the loop condition, counted from 0,
    when the polls before it failed, and the world of the poll that follows
    this test. *)
Definition test_world (timeout_ns : option number) (ctrl_address : string) (w : World)
    (k : nat) : World :=
  Nat.iter k (next_test timeout_ns ctrl_address) w.

Definition poll_world (timeout_ns : option number) (ctrl_address : string) (w : World)
    (k : nat) : World :=
  after_test timeout_ns (test_world timeout_ns ctrl_address w k).


(** ** Sample inputs *)

Module Samples.

Definition entity1 : RelatedEntity :=
  {| address := "10.0.0.1"; port := 8081; shard_id_field := Some 1 |}.

Definition entity_no_shard : RelatedEntity :=
  {| address := "10.0.0.2"; port := 8082; shard_id_field := None |}.

Definition control_envelope : Envelope :=
  {| request_id := "c"; request_type := "ControlRequest" |}.

Definition activate (es : list RelatedEntity) : Message :=
  {| envelope := control_envelope; request := ControlRequest "ACTIVATE" es |}.

Definition deactivate (es : list RelatedEntity) : Message :=
  {| envelope := control_envelope; request := ControlRequest "DEACTIVATE" es |}.

Definition terminate : Message :=
  {| envelope := control_envelope; request := ControlRequest "TERMINATE" [] |}.

Definition d1 : Document := {| doc_id := "d1"; doc_content := "one" |}.
Definition d2 : Document := {| doc_id := "d2"; doc_content := "two" |}.
Definition d3 : Document := {| doc_id := "d3"; doc_content := "three" |}.

Definition data_message (id : string) (ds : list Document) : Message :=
  {| envelope := {| request_id := id; request_type := "DataRequest" |};
     request := DataRequest ds |}.

(** The replies of the example scenario of the specification. *)
Definition w1_reply : Message := data_message "w1" [d1; d2].
Definition w2_reply : Message := data_message "w2" [d3].
Definition after_reply : Message := data_message "after" [].

(** A network on which the fan-out gives [replies] and the post-stage
    answers [after_reply]. *)
Definition network_of (replies : list (Result Message)) : Network :=
  {| reply_once := fun _ _ _ => Ok after_reply;
     reply_fanout := fun _ _ _ _ => replies |}.

Definition pool_of (eps : Endpoints) (replies : list (Result Message)) : GrpcConnectionPool :=
  {| connections := eps; network := network_of replies |}.

Definition state_of (eps : Endpoints) (replies : list (Result Message))
  : HeadState GrpcConnectionPool :=
  {| connection_pool := pool_of eps replies; is_cancel := false; logger := [] |}.

(** A head without pre- and post-stage, on which tasks complete in the
    order of their dispatch. *)
Definition head : HeadRuntime :=
  {| name := "head-0";
     uses_before_address := None;
     uses_after_address := None;
     polling := ALL;
     quiet_error := false;
     as_completed := fun tasks => tasks |}.

(** The same head with a post-stage. *)
Definition head_after : HeadRuntime :=
  {| name := "head-0";
     uses_before_address := None;
     uses_after_address := Some "10.0.0.9:9000";
     polling := ALL;
     quiet_error := false;
     as_completed := fun tasks => tasks |}.

(** A world in which every probe fails with [RpcError] at once, one in
    which the probe raises something else, and one in which the probe is
    answered from 250 ms on.  In all of them no time passes but in the
    sleeps, which last what they are asked for. *)
Definition world_of (sync : Z -> Message -> string -> Result Message * N) : World :=
  {| clock := 0;
     naps := [];
     lag := fun _ => 0%N;
     oversleep := fun _ => 0%N;
     send_message_sync := sync |}.

Definition world_down : World :=
  world_of (fun _ _ _ => (Raise (RpcError "UNAVAILABLE"), 0%N)).

Definition world_broken : World :=
  world_of (fun _ _ _ => (Raise (OtherException "ValueError"), 0%N)).

Definition world_up_at_250ms : World :=
  world_of (fun t m _ =>
    if 250000000 <=? t then (Ok m, 0%N) else (Raise (RpcError "UNAVAILABLE"), 0%N)).

(** The floats [0.0], [1.0] and [0.1]. *)
Definition float_zero : number := PyFloat (S754_zero false).
Definition float_one : number := PyFloat (S754_finite false 4503599627370496 (-52)).
Definition float_tenth : number := PyFloat (S754_finite false 7205759403792794 (-56)).

Definition never_set : Z -> bool := fun _ => false.

End Samples.

(** ** Vocabulary of the further properties *)

(** A message that carries a control request, whatever its command. *)
Definition is_control (m : Message) : Prop :=
  exists c es, request m = ControlRequest c es.

(** The message carries the command TERMINATE. *)
Definition is_terminate (m : Message) : bool :=
  match request m with
  | ControlRequest c _ => String.eqb c "TERMINATE"
  | DataRequest _ => false
  end.

(** The registration that ACTIVATE adds for an entity, and the one that
    DEACTIVATE removes for it. *)
Definition activated_registration (e : RelatedEntity) : string * string * option Z :=
  ("worker", connection_string e,
   if HasField_shard_id e then Some (shard_id e) else None).

Definition deactivated_registration (e : RelatedEntity) : string * string * option Z :=
  ("worker", connection_string e, Some (shard_id e)).

(** [worker_updates p p']: the pool [p'] is reached from [p] by calls of
    [add_connection] and [remove_connection] for the role [worker]. *)
Inductive worker_updates {P : Type} `{ConnectionPool P} : P -> P -> Prop :=
| worker_updates_refl (p : P) : worker_updates p p
| worker_updates_add (p p' : P) (a : string) (s : option Z) :
    worker_updates p p' -> worker_updates p (add_connection "worker" a s p')
| worker_updates_remove (p p' : P) (a : string) (s : option Z) :
    worker_updates p p' -> worker_updates p (remove_connection "worker" a s p').

(** The registrations under the roles other than [worker]. *)
Definition other_roles (p : GrpcConnectionPool) : Endpoints :=
  filter (fun ep => ep.1.1 <> "worker") (connections p).

(** The exceptions that the second [except] clause of [Call] catches. *)
Definition logged_by_Call (e : exn) : bool :=
  match e with
  | RuntimeTerminated | BaseExceptionOnly _ => false
  | _ => true
  end.

(** A state whose pre-stage fails with [e]. *)
Definition sample_state_failing_once (e : exn) : HeadState GrpcConnectionPool :=
  {| connection_pool :=
       {| connections := ∅;
          network := {| reply_once := fun _ _ _ => Raise e;
                        reply_fanout := fun _ _ _ _ => [] |} |};
     is_cancel := false;
     logger := [] |}.

(** The record that [Call] logs for the exception [ex]. *)
Definition log_record (self : HeadRuntime) (ex : exn) : LogRecord :=
  {| logged := if negb (quiet_error self) then Some ex else None;
     exc_info := negb (quiet_error self) |}.

(** A head with a pre-stage, otherwise as [Samples.head]. *)
Definition sample_head_before : HeadRuntime :=
  {| name := "head-0";
     uses_before_address := Some "10.0.0.8:9000";
     uses_after_address := None;
     polling := ALL;
     quiet_error := false;
     as_completed := fun tasks => tasks |}.

(** * Properties *)

(** ** The monad *)

Lemma bind_ok {S A B : Type} (m : Run S A) (k : A -> Run S B) (s s' : S) (a : A) :
  m s = (Ok a, s') -> bind m k s = k a s'.
Proof. intros E. unfold bind. now rewrite E. Qed.

Lemma bind_raise {S A B : Type} (m : Run S A) (k : A -> Run S B) (s s' : S) (e : exn) :
  m s = (Raise e, s') -> bind m k s = (Raise e, s').
Proof. intros E. unfold bind. now rewrite E. Qed.

Lemma streq_false (a b : string) : a <> b -> String.eqb a b = false.
Proof. apply String.eqb_neq. Qed.

(** ** The control plane *)

Section ControlPlane.
Context {P : Type} `{ConnectionPool P}.
Variable self : HeadRuntime.

(** A loop of registry updates never raises and touches the pool only. *)
Lemma for_each_with_pool {A : Type} (f : A -> P -> P) (xs : list A) (st : HeadState P) :
  for_each xs (fun x => with_pool (f x)) st =
    (Ok tt, {| connection_pool := fold_left (fun p x => f x p) xs (connection_pool st);
               is_cancel := is_cancel st;
               logger := logger st |}).
Proof.
  revert st. induction xs as [|x xs IH]; intros st.
  - destruct st; reflexivity.
  - cbn [for_each fold_left]. unfold bind at 1. cbn. now rewrite IH.
Qed.

(** Every command but [TERMINATE] returns its own message. *)
Lemma handle_plain_command (msg : Message) (st : HeadState P) :
  plain_command msg ->
  exists st', _handle_control_request msg st = (Ok msg, st')
              /\ is_cancel st' = is_cancel st /\ logger st' = logger st.
Proof.
  intros (c & es & Hreq & Hc). unfold _handle_control_request.
  rewrite Hreq. cbn [command relatedEntities]. unfold lift, bind at 1.
  rewrite (streq_false _ _ Hc).
  destruct (String.eqb c "ACTIVATE").
  { unfold bind. rewrite for_each_with_pool. eexists; split; [reflexivity|]. now cbn. }
  destruct (String.eqb c "DEACTIVATE").
  { unfold bind. rewrite for_each_with_pool. eexists; split; [reflexivity|]. now cbn. }
  exists st. now cbn.
Qed.

Lemma handle_activate (msg : Message) (es : list RelatedEntity) (st : HeadState P) :
  request msg = ControlRequest "ACTIVATE" es ->
  _handle_control_request msg st =
    (Ok msg,
     {| connection_pool :=
          fold_left (fun p e =>
            add_connection "worker" (connection_string e)
              (if HasField_shard_id e then Some (shard_id e) else None) p)
            es (connection_pool st);
        is_cancel := is_cancel st;
        logger := logger st |}).
Proof.
  intros Hreq. unfold _handle_control_request. rewrite Hreq.
  cbn [command relatedEntities]. unfold lift, bind. cbn [String.eqb Ascii.eqb Bool.eqb].
  now rewrite for_each_with_pool.
Qed.

Lemma handle_deactivate (msg : Message) (es : list RelatedEntity) (st : HeadState P) :
  request msg = ControlRequest "DEACTIVATE" es ->
  _handle_control_request msg st =
    (Ok msg,
     {| connection_pool :=
          fold_left (fun p e =>
            remove_connection "worker" (connection_string e) (Some (shard_id e)) p)
            es (connection_pool st);
        is_cancel := is_cancel st;
        logger := logger st |}).
Proof.
  intros Hreq. unfold _handle_control_request. rewrite Hreq.
  cbn [command relatedEntities]. unfold lift, bind. cbn [String.eqb Ascii.eqb Bool.eqb].
  now rewrite for_each_with_pool.
Qed.

Lemma handle_terminate (msg : Message) (st : HeadState P) :
  command (request msg) = Ok "TERMINATE" ->
  _handle_control_request msg st = (Raise RuntimeTerminated, st).
Proof.
  intros Hc. unfold _handle_control_request. rewrite Hc. reflexivity.
Qed.

(** A command that is none of the three the head knows changes nothing. *)
Lemma handle_unknown_command (msg : Message) (c : string) (es : list RelatedEntity)
    (st : HeadState P) :
  request msg = ControlRequest c es ->
  c <> "TERMINATE" -> c <> "ACTIVATE" -> c <> "DEACTIVATE" ->
  _handle_control_request msg st = (Ok msg, st).
Proof.
  intros Hreq H1 H2 H3. unfold _handle_control_request.
  rewrite Hreq. cbn [command]. unfold lift, bind.
  now rewrite (streq_false _ _ H1), (streq_false _ _ H2), (streq_false _ _ H3).
Qed.

Lemma control_loop_plain (ms : list Message) (r : option Message) (st : HeadState P) :
  Forall plain_command ms ->
  control_loop r ms st = (Ok (last_of r ms), process_each ms st).
Proof.
  intros HF. revert r st. induction HF as [|m ms Hm _ IH]; intros r st.
  - reflexivity.
  - cbn [control_loop]. destruct (handle_plain_command m st Hm) as (st' & E & _).
    rewrite (bind_ok _ _ _ _ _ E). rewrite IH.
    unfold process_each, last_of. cbn [fold_left]. now rewrite E.
Qed.

Lemma process_each_flags (ms : list Message) (st : HeadState P) :
  Forall plain_command ms ->
  is_cancel (process_each ms st) = is_cancel st
  /\ logger (process_each ms st) = logger st.
Proof.
  intros HF. revert st. induction HF as [|m ms Hm _ IH]; intros st.
  - now cbn.
  - unfold process_each. cbn [fold_left].
    destruct (handle_plain_command m st Hm) as (st' & E & Hc & Hl).
    rewrite E. cbn [snd]. fold (process_each ms st').
    destruct (IH st') as [-> ->]. now split.
Qed.

(** The loop stops at the first [TERMINATE]: what follows it is not read. *)
Lemma control_loop_terminate (pre post : list Message) (term : Message)
    (r : option Message) (st : HeadState P) :
  command (request term) = Ok "TERMINATE" ->
  control_loop r (pre ++ term :: post) st = control_loop r (pre ++ [term]) st
  /\ forall m, fst (control_loop r (pre ++ term :: post) st) <> Ok (Some m).
Proof.
  intros Ht. revert r st. induction pre as [|m pre IH]; intros r st.
  - cbn [app control_loop]. rewrite !(bind_raise _ _ _ _ _ (handle_terminate term st Ht)).
    split; [reflexivity | discriminate].
  - cbn [app control_loop]. unfold bind at 1 2 3.
    destruct (_handle_control_request m st) as [[a|e] st'].
    + apply IH.
    + split; [reflexivity | discriminate].
Qed.

Lemma handle_messages_control (m0 : Message) (rest : list Message) (st : HeadState P) :
  request_type (envelope m0) <> "DataRequest" ->
  _handle_messages self (m0 :: rest) st = control_loop None (m0 :: rest) st.
Proof.
  intros Hty. unfold _handle_messages. cbn [item0]. unfold lift, bind at 1.
  now rewrite (streq_false _ _ Hty).
Qed.

End ControlPlane.

Section ControlBatches.
Context {P : Type} `{ConnectionPool P}.
Variable self : HeadRuntime.

Lemma last_of_last (r : option Message) (ms : list Message) :
  last_of r ms = match last ms with Some m => Some m | None => r end.
Proof.
  revert r. induction ms as [|m ms IH]; intros r; [reflexivity|].
  unfold last_of. cbn [fold_left]. fold (last_of (Some m) ms). rewrite IH.
  destruct ms as [|m' ms]; [reflexivity|]. cbn [last].
  destruct (last (m' :: ms)) eqn:E; [reflexivity|].
  apply last_None in E. discriminate.
Qed.

Lemma control_loop_until_terminate (pre : list Message) (term : Message)
    (r : option Message) (st : HeadState P) :
  Forall plain_command pre ->
  command (request term) = Ok "TERMINATE" ->
  control_loop r (pre ++ [term]) st = (Raise RuntimeTerminated, process_each pre st).
Proof.
  intros HF Ht. revert r st. induction HF as [|m pre Hm _ IH]; intros r st.
  - cbn [app control_loop]. now rewrite (bind_raise _ _ _ _ _ (handle_terminate term st Ht)).
  - cbn [app control_loop]. destruct (handle_plain_command m st Hm) as (st' & E & _).
    rewrite (bind_ok _ _ _ _ _ E), IH. unfold process_each. cbn [fold_left]. now rewrite E.
Qed.

(** C2 (as amended).  For a Control batch whose messages all carry a command
    other than TERMINATE, [Call] leaves the state that processing the
    messages one by one in input order leaves, and returns the last message
    of the batch, which is what processing that message alone returns. *)
Theorem control_batch_returns_last (messages : list Message) (st : HeadState P) :
  control_batch messages ->
  Forall plain_command messages ->
  exists m, last messages = Some m
    /\ Call self messages st = (Ok (Some m), process_each messages st)
    /\ forall s, fst (_handle_control_request m s) = Ok m.
Proof.
  intros (m0 & rest & -> & Hty) HF.
  destruct (last (m0 :: rest)) as [m|] eqn:Hlast.
  2:{ apply last_None in Hlast. discriminate. }
  exists m. split; [reflexivity|]. split.
  - unfold Call. rewrite (handle_messages_control self m0 rest st Hty).
    rewrite (control_loop_plain _ _ _ HF), last_of_last, Hlast. reflexivity.
  - intros s. assert (Hm : plain_command m).
    { apply last_Some_elem_of in Hlast. exact (proj1 (Forall_forall _ _) HF m Hlast). }
    destruct (handle_plain_command m s Hm) as (s' & E & _). now rewrite E.
Qed.

(** C6.  A command that is none of TERMINATE, ACTIVATE and DEACTIVATE is
    processed without any change of the state, the Connection Registry
    included, and the call that carries it returns normally, with the
    message itself. *)
Theorem unknown_command_is_noop (msg : Message) (c : string) (es : list RelatedEntity)
    (st : HeadState P) :
  request msg = ControlRequest c es ->
  c <> "TERMINATE" -> c <> "ACTIVATE" -> c <> "DEACTIVATE" ->
  _handle_control_request msg st = (Ok msg, st)
  /\ (request_type (envelope msg) <> "DataRequest" ->
      Call self [msg] st = (Ok (Some msg), st)).
Proof.
  intros Hreq H1 H2 H3.
  pose proof (handle_unknown_command msg c es st Hreq H1 H2 H3) as E.
  split; [exact E|]. intros Hty. unfold Call.
  rewrite (handle_messages_control self msg [] st Hty). cbn [control_loop].
  now rewrite (bind_ok _ _ _ _ _ E).
Qed.

(** C9.  In a Control batch, what follows a TERMINATE is never processed:
    the call does the same, to the state and to the caller, as on the batch
    cut after the TERMINATE; it returns no message; and when the messages
    before the TERMINATE are commands, the registry is as they left it, the
    cancel event is set and the call returns [None]. *)
Theorem terminate_aborts_batch (pre post : list Message) (term : Message)
    (st : HeadState P) :
  control_batch (pre ++ term :: post) ->
  command (request term) = Ok "TERMINATE" ->
  Call self (pre ++ term :: post) st = Call self (pre ++ [term]) st
  /\ (forall m, fst (Call self (pre ++ term :: post) st) <> Ok (Some m))
  /\ (Forall plain_command pre ->
      Call self (pre ++ term :: post) st = (Ok None, cancel (process_each pre st))).
Proof.
  intros (m0 & rest & Hb & Hty) Ht.
  assert (Hcut : exists rest', pre ++ [term] = m0 :: rest').
  { destruct pre as [|p pre]; cbn in Hb |- *; injection Hb as -> _; eauto. }
  destruct Hcut as (rest' & Hb').
  destruct (control_loop_terminate pre post term None st Ht) as [Hsame Hno].
  assert (Hfull : _handle_messages self (pre ++ term :: post) st
                  = control_loop None (pre ++ [term]) st).
  { rewrite Hb, (handle_messages_control self m0 rest st Hty), <- Hb. exact Hsame. }
  assert (Hshort : _handle_messages self (pre ++ [term]) st
                   = control_loop None (pre ++ [term]) st).
  { rewrite Hb', (handle_messages_control self m0 rest' st Hty). reflexivity. }
  split; [|split].
  - unfold Call. now rewrite Hfull, Hshort.
  - intros m. unfold Call. rewrite Hfull, <- Hsame.
    specialize (Hno m).
    destruct (control_loop None (pre ++ term :: post) st) as [[r|e] st'].
    + exact Hno.
    + destruct e; discriminate.
  - intros HF. unfold Call.
    rewrite Hfull, (control_loop_until_terminate pre term None st HF Ht). reflexivity.
Qed.

End ControlBatches.

Lemma control_batch_returns_last_witness :
  exists m, last [Samples.activate [Samples.entity1]; Samples.deactivate [Samples.entity1]] = Some m
    /\ Call Samples.head
         [Samples.activate [Samples.entity1]; Samples.deactivate [Samples.entity1]]
         (Samples.state_of ∅ [])
       = (Ok (Some m),
          process_each [Samples.activate [Samples.entity1]; Samples.deactivate [Samples.entity1]]
            (Samples.state_of ∅ []))
    /\ forall s : HeadState GrpcConnectionPool, fst (_handle_control_request m s) = Ok m.
Proof.
  apply (control_batch_returns_last Samples.head).
  - eexists _, _. split; [reflexivity | discriminate].
  - repeat constructor; eexists _, _; (split; [reflexivity | discriminate]).
Defined.

(** C2, as the specification states it, fails on the batch
    [TERMINATE; ACTIVATE]: processing the last message gives that message,
    and the call returns [None]. *)
Lemma control_batch_returns_last_counterexample :
  control_batch [Samples.terminate; Samples.activate [Samples.entity1]]
  /\ ~ (forall r s',
          _handle_control_request (Samples.activate [Samples.entity1]) (Samples.state_of ∅ [])
            = (Ok r, s') ->
          fst (Call Samples.head [Samples.terminate; Samples.activate [Samples.entity1]]
                 (Samples.state_of ∅ [])) = Ok (Some r)).
Proof.
  split.
  - eexists _, _. split; [reflexivity | discriminate].
  - intros Hclaim. specialize (Hclaim _ _ eq_refl). discriminate Hclaim.
Qed.

Lemma unknown_command_is_noop_witness :
  _handle_control_request (ControlMessage "STATUS") (Samples.state_of ∅ [])
    = (Ok (ControlMessage "STATUS"), Samples.state_of ∅ [])
  /\ (request_type (envelope (ControlMessage "STATUS")) <> "DataRequest" ->
      Call Samples.head [ControlMessage "STATUS"] (Samples.state_of ∅ [])
        = (Ok (Some (ControlMessage "STATUS")), Samples.state_of ∅ [])).
Proof.
  apply (unknown_command_is_noop Samples.head (ControlMessage "STATUS") "STATUS" []);
    [reflexivity | discriminate | discriminate | discriminate].
Defined.

Lemma terminate_aborts_batch_witness :
  Call Samples.head ([Samples.activate [Samples.entity1]] ++
                     Samples.terminate :: [Samples.deactivate [Samples.entity1]])
    (Samples.state_of ∅ [])
  = (Ok None, cancel (process_each [Samples.activate [Samples.entity1]] (Samples.state_of ∅ []))).
Proof.
  apply (terminate_aborts_batch Samples.head [Samples.activate [Samples.entity1]]
           [Samples.deactivate [Samples.entity1]] Samples.terminate).
  - eexists _, _. split; [reflexivity | discriminate].
  - reflexivity.
  - repeat constructor; eexists _, _; (split; [reflexivity | discriminate]).
Defined.

(** ** The data plane *)

Lemma flatten_docs_data (rs : list Message) :
  Forall is_data rs ->
  flatten_docs (map request rs) = Ok (concat (map docs_of rs)).
Proof.
  induction 1 as [|m rs (ds & Hm) _ IH]; [reflexivity|].
  cbn [map flatten_docs concat]. unfold docs_of at 1. rewrite Hm, IH. reflexivity.
Qed.

Lemma mentions_name (self : HeadRuntime) :
  exists msg, no_response_error self = RuntimeError msg /\ mentions msg (name self).
Proof.
  unfold no_response_error. eexists. split; [reflexivity|].
  exists "Head ", " did not receive a response when sending message to worker peas".
  reflexivity.
Qed.

Section DataPlane.
Context {P : Type} `{ConnectionPool P}.
Variable self : HeadRuntime.

(** The pre-stage, the fan-out and the join read the state and leave it as
    it is. *)
Lemma collect_worker_results_state (messages : list Message) (st : HeadState P) :
  snd (collect_worker_results self messages st) = st.
Proof.
  unfold collect_worker_results, bind, gets, lift, ret.
  destruct (truthy_str (uses_before_address self)); [|reflexivity].
  now destruct (send_messages_once messages "uses_before" (connection_pool st)).
Qed.

Lemma collect_worker_results_eq (messages : list Message) (st : HeadState P)
    (r : Result (list Message)) :
  fst (collect_worker_results self messages st) = r ->
  collect_worker_results self messages st = (r, st).
Proof.
  intros <-. rewrite <- (collect_worker_results_state messages st) at 3.
  now destruct (collect_worker_results self messages st).
Qed.

Lemma handle_messages_data (messages : list Message) (st : HeadState P) :
  data_batch messages ->
  _handle_messages self messages st =
    (r <- _handle_data_requests self messages ;; ret (Some r)) st.
Proof.
  intros (m0 & rest & -> & Hty). unfold _handle_messages. cbn [item0].
  unfold lift, bind at 1. rewrite Hty. reflexivity.
Qed.

(** C1.  On a Data batch whose fan-out collects the results [R], more than
    one and each with a document sequence, a head with no [uses_after]
    returns the envelope of [R[0]], the first in completion order, with the
    documents of the results concatenated in the reverse of completion
    order; the state is unchanged. *)
Theorem local_merge_reverses_completion_order (messages : list Message)
    (st : HeadState P) (R : list Message) :
  data_batch messages ->
  no_uses_after self ->
  fst (collect_worker_results self messages st) = Ok R ->
  (1 < length R)%nat ->
  Forall is_data R ->
  exists m r0, Call self messages st = (Ok (Some m), st)
    /\ R !! 0%nat = Some r0
    /\ envelope m = envelope r0
    /\ request m = DataRequest (concat (map docs_of (rev R))).
Proof.
  intros Hb Hua HR Hlen Hdata.
  destruct R as [|r0 R']; [cbn in Hlen; lia|].
  destruct (Forall_cons_1 _ _ _ Hdata) as [(ds0 & Hr0) _].
  exists {| envelope := envelope r0;
            request := DataRequest (concat (map docs_of (rev (r0 :: R')))) |}, r0.
  split; [|repeat split].
  unfold Call. rewrite (handle_messages_data messages st Hb).
  unfold bind at 1. unfold _handle_data_requests.
  rewrite (bind_ok _ _ _ _ _ (collect_worker_results_eq _ _ _ HR)).
  unfold no_uses_after in Hua. rewrite Hua.
  apply Nat.ltb_lt in Hlen. rewrite Hlen.
  rewrite <- map_rev, (flatten_docs_data (rev (r0 :: R'))).
  2:{ apply Forall_rev. exact Hdata. }
  cbn [item0]. unfold lift, bind, ret, replace_docs. rewrite Hr0. reflexivity.
Qed.

(** C3 (as amended).  On a Data batch whose fan-out collects no result, a
    head with no [uses_after] fails the call with the [RuntimeError] whose
    text names the head; the error is logged and no message is returned. *)
Theorem no_worker_result_fails (messages : list Message) (st : HeadState P) :
  data_batch messages ->
  no_uses_after self ->
  fst (collect_worker_results self messages st) = Ok [] ->
  Call self messages st
    = (Raise (no_response_error self), logger_error self (no_response_error self) st)
  /\ exists msg, no_response_error self = RuntimeError msg /\ mentions msg (name self).
Proof.
  intros Hb Hua HR. split; [|apply mentions_name].
  unfold Call. rewrite (handle_messages_data messages st Hb).
  unfold bind at 1. unfold _handle_data_requests.
  rewrite (bind_ok _ _ _ _ _ (collect_worker_results_eq _ _ _ HR)).
  unfold no_uses_after in Hua. rewrite Hua. reflexivity.
Qed.

(** C4 (as amended).  On a Data batch whose fan-out collects exactly one
    result, a head with no [uses_after] returns that result as it is and
    leaves the state unchanged. *)
Theorem single_result_passes_through (messages : list Message) (st : HeadState P)
    (r : Message) :
  data_batch messages ->
  no_uses_after self ->
  fst (collect_worker_results self messages st) = Ok [r] ->
  Call self messages st = (Ok (Some r), st).
Proof.
  intros Hb Hua HR.
  unfold Call. rewrite (handle_messages_data messages st Hb).
  unfold bind at 1. unfold _handle_data_requests.
  rewrite (bind_ok _ _ _ _ _ (collect_worker_results_eq _ _ _ HR)).
  unfold no_uses_after in Hua. rewrite Hua. reflexivity.
Qed.

End DataPlane.

Lemma sample_data_batch (id : string) (ds : list Document) :
  data_batch [Samples.data_message id ds].
Proof. eexists _, _. split; reflexivity. Qed.

(** The example scenario of the specification: [w2] replies first. *)
Lemma local_merge_reverses_completion_order_witness :
  exists m r0,
    Call Samples.head [Samples.data_message "q" []]
      (Samples.state_of ∅ [Ok Samples.w2_reply; Ok Samples.w1_reply])
      = (Ok (Some m), Samples.state_of ∅ [Ok Samples.w2_reply; Ok Samples.w1_reply])
    /\ [Samples.w2_reply; Samples.w1_reply] !! 0%nat = Some r0
    /\ envelope m = envelope r0
    /\ request m = DataRequest
         (concat (map docs_of (rev [Samples.w2_reply; Samples.w1_reply]))).
Proof.
  apply (local_merge_reverses_completion_order Samples.head).
  - apply sample_data_batch.
  - reflexivity.
  - reflexivity.
  - cbn. lia.
  - repeat constructor; eexists; reflexivity.
Defined.

Lemma no_worker_result_fails_witness :
  Call Samples.head [Samples.data_message "q" []] (Samples.state_of ∅ [])
    = (Raise (no_response_error Samples.head),
       logger_error Samples.head (no_response_error Samples.head) (Samples.state_of ∅ []))
  /\ exists msg, no_response_error Samples.head = RuntimeError msg
                 /\ mentions msg (name Samples.head).
Proof.
  apply (no_worker_result_fails Samples.head).
  - apply sample_data_batch.
  - reflexivity.
  - reflexivity.
Defined.

(** C3, as the specification states it, fails when a [uses_after] is
    configured: the empty list of results is sent to it and its reply is
    returned. *)
Lemma no_worker_result_fails_counterexample :
  data_batch [Samples.data_message "q" []]
  /\ fst (collect_worker_results Samples.head_after [Samples.data_message "q" []]
            (Samples.state_of ∅ [])) = Ok []
  /\ ~ (exists e, fst (Call Samples.head_after [Samples.data_message "q" []]
                         (Samples.state_of ∅ [])) = Raise e).
Proof.
  split; [apply sample_data_batch|]. split; [reflexivity|].
  intros (e & He). discriminate He.
Qed.

Lemma single_result_passes_through_witness :
  Call Samples.head [Samples.data_message "q" []] (Samples.state_of ∅ [Ok Samples.w1_reply])
    = (Ok (Some Samples.w1_reply), Samples.state_of ∅ [Ok Samples.w1_reply]).
Proof.
  apply (single_result_passes_through Samples.head).
  - apply sample_data_batch.
  - reflexivity.
  - reflexivity.
Defined.

(** C4, as the specification states it, fails when a [uses_after] is
    configured: the single result is sent to it and its reply is returned
    in place of the result. *)
Lemma single_result_passes_through_counterexample :
  data_batch [Samples.data_message "q" []]
  /\ fst (collect_worker_results Samples.head_after [Samples.data_message "q" []]
            (Samples.state_of ∅ [Ok Samples.w1_reply])) = Ok [Samples.w1_reply]
  /\ fst (Call Samples.head_after [Samples.data_message "q" []]
            (Samples.state_of ∅ [Ok Samples.w1_reply])) <> Ok (Some Samples.w1_reply).
Proof.
  split; [apply sample_data_batch|]. split; [reflexivity|]. discriminate.
Qed.

(** ** The Connection Registry *)

(** ACTIVATE then DEACTIVATE of an entity that carries a shard_id leaves
    the registry without its registration, whether or not it was there
    before. *)
Lemma activate_deactivate_connections (e : RelatedEntity) (s : Z) (am dm : Message)
    (st : HeadState GrpcConnectionPool) :
  shard_id_field e = Some s ->
  request am = ControlRequest "ACTIVATE" [e] ->
  request dm = ControlRequest "DEACTIVATE" [e] ->
  connections (connection_pool (process_each [am; dm] st))
    = connections (connection_pool st) ∖ {[ ("worker", connection_string e, Some s) ]}.
Proof.
  intros Hs Ha Hd. unfold process_each. cbn [fold_left].
  rewrite (handle_activate am [e] st Ha). cbn [snd].
  rewrite (handle_deactivate dm [e] _ Hd).
  cbn [snd fold_left connection_pool connections add_connection remove_connection
       GrpcConnectionPool_pool].
  unfold HasField_shard_id, shard_id. rewrite Hs.
  apply set_eq. intros x.
  rewrite !elem_of_difference, elem_of_union, elem_of_singleton. tauto.
Qed.

Lemma connection_string_entity1 :
  connection_string Samples.entity1 = "10.0.0.1:8081".
Proof. vm_compute. reflexivity. Qed.

Lemma connection_string_entity_no_shard :
  connection_string Samples.entity_no_shard = "10.0.0.2:8082".
Proof. vm_compute. reflexivity. Qed.

(** C5 (as amended).  For an entity that carries a shard_id and whose
    registration [(worker, address:port, shard_id)] is not in the registry,
    ACTIVATE and then DEACTIVATE of it both return normally and leave the
    state of the head, its registry and its worker set included, as it was
    before the ACTIVATE. *)
Theorem activate_deactivate_roundtrip (e : RelatedEntity) (s : Z) (am dm : Message)
    (st : HeadState GrpcConnectionPool) :
  shard_id_field e = Some s ->
  ("worker", connection_string e, Some s) ∉ connections (connection_pool st) ->
  request am = ControlRequest "ACTIVATE" [e] ->
  request dm = ControlRequest "DEACTIVATE" [e] ->
  exists st1,
    _handle_control_request am st = (Ok am, st1)
    /\ _handle_control_request dm st1 = (Ok dm, st)
    /\ workers (connection_pool (process_each [am; dm] st)) = workers (connection_pool st).
Proof.
  intros Hs Hfresh Ha Hd. eexists. split; [apply (handle_activate am [e] st Ha)|].
  assert (Hback : _handle_control_request dm
            {| connection_pool :=
                 fold_left (fun p e0 =>
                   add_connection "worker" (connection_string e0)
                     (if HasField_shard_id e0 then Some (shard_id e0) else None) p)
                   [e] (connection_pool st);
               is_cancel := is_cancel st;
               logger := logger st |} = (Ok dm, st)).
  { rewrite (handle_deactivate dm [e] _ Hd).
    cbn [fold_left connection_pool connections network is_cancel logger
         add_connection remove_connection GrpcConnectionPool_pool].
    unfold HasField_shard_id, shard_id. rewrite Hs.
    destruct st as [[C N] c l].
    cbn [connection_pool connections network is_cancel logger] in *.
    do 3 f_equal. apply set_eq. intros x.
    rewrite elem_of_difference, elem_of_union, elem_of_singleton.
    split; [intros [[->|Hx] Hne]; [contradiction | exact Hx] | intros Hx].
    split; [now right | intros ->; contradiction]. }
  split; [exact Hback|].
  unfold process_each. cbn [fold_left].
  rewrite (handle_activate am [e] st Ha). cbn [snd]. now rewrite Hback.
Qed.

Lemma activate_deactivate_roundtrip_witness :
  exists st1,
    _handle_control_request (Samples.activate [Samples.entity1]) (Samples.state_of ∅ [])
      = (Ok (Samples.activate [Samples.entity1]), st1)
    /\ _handle_control_request (Samples.deactivate [Samples.entity1]) st1
      = (Ok (Samples.deactivate [Samples.entity1]), Samples.state_of ∅ [])
    /\ workers (connection_pool
         (process_each [Samples.activate [Samples.entity1];
                        Samples.deactivate [Samples.entity1]] (Samples.state_of ∅ [])))
       = workers (connection_pool (Samples.state_of ∅ [])).
Proof.
  apply (activate_deactivate_roundtrip Samples.entity1 1).
  - reflexivity.
  - apply not_elem_of_empty.
  - reflexivity.
  - reflexivity.
Defined.

(** C5, as the specification states it, fails for a worker that is
    registered before the ACTIVATE: the ACTIVATE changes nothing and the
    DEACTIVATE removes the registration. *)
Lemma activate_deactivate_roundtrip_counterexample :
  ~ (workers (connection_pool
       (process_each [Samples.activate [Samples.entity1];
                      Samples.deactivate [Samples.entity1]]
          (Samples.state_of {[ ("worker", "10.0.0.1:8081", Some 1) ]} [])))
     = workers (connection_pool
         (Samples.state_of {[ ("worker", "10.0.0.1:8081", Some 1) ]} []))).
Proof.
  intros Heq.
  assert (Hin : ("worker", "10.0.0.1:8081", Some 1)
                ∈ workers (connection_pool
                    (Samples.state_of {[ ("worker", "10.0.0.1:8081", Some 1) ]} []))).
  { unfold workers.
    cbn [connection_pool connections Samples.state_of Samples.pool_of].
    apply elem_of_filter. split; [reflexivity | now apply elem_of_singleton_2]. }
  rewrite <- Heq in Hin. unfold workers in Hin. apply elem_of_filter in Hin as [_ Hin].
  rewrite (activate_deactivate_connections Samples.entity1 1) in Hin by reflexivity.
  rewrite connection_string_entity1 in Hin.
  apply elem_of_difference in Hin as [_ Hout]. now apply Hout, elem_of_singleton_2.
Qed.

(** An entity without shard_id is registered by ACTIVATE under no shard and
    looked for by DEACTIVATE under shard 0, the value the field reads as:
    the registration stays. *)
Example deactivate_without_shard_id :
  connections (connection_pool
    (process_each [Samples.activate [Samples.entity_no_shard];
                   Samples.deactivate [Samples.entity_no_shard]] (Samples.state_of ∅ [])))
  = {[ ("worker", "10.0.0.2:8082", None) ]}.
Proof.
  unfold process_each. cbn [fold_left].
  rewrite (handle_activate (Samples.activate [Samples.entity_no_shard]) _ _ eq_refl).
  cbn [snd].
  rewrite (handle_deactivate (Samples.deactivate [Samples.entity_no_shard]) _ _ eq_refl).
  cbn [snd fold_left connection_pool connections add_connection remove_connection
       GrpcConnectionPool_pool Samples.state_of Samples.pool_of].
  rewrite connection_string_entity_no_shard.
  cbn [HasField_shard_id shard_id shard_id_field Samples.entity_no_shard].
  apply set_eq. intros x. rewrite elem_of_difference, elem_of_union, !elem_of_singleton.
  split.
  - intros [[->|Hx] _]; [reflexivity|]. now apply not_elem_of_empty in Hx.
  - intros ->. split; [now left | discriminate].
Qed.

(** ** The readiness probe *)

Lemma is_ready_eq (ctrl_address : string) (w : World) :
  is_ready ctrl_address w =
    (match probe ctrl_address w with
     | Ok _ => Ok true
     | Raise (RpcError _) => Ok false
     | Raise e => Raise e
     end,
     later (Z.of_N (probe_took ctrl_address w)) w).
Proof.
  unfold is_ready, probe, probe_took.
  destruct (send_message_sync w (clock w) (ControlMessage "STATUS") ctrl_address) as [r took].
  cbn [fst snd]. destruct r as [m|[]]; reflexivity.
Qed.

(** C7 (as amended).  [is_ready] returns [False] when the STATUS probe
    raises [RpcError], the failure of the transport, and [True] when the
    probe returns; it never raises an [RpcError]; an exception of another
    class that the probe raises reaches the caller. *)
Theorem is_ready_reports_rpc_failure (ctrl_address : string) (w : World) :
  (forall details, probe ctrl_address w = Raise (RpcError details) ->
     fst (is_ready ctrl_address w) = Ok false)
  /\ (forall m, probe ctrl_address w = Ok m -> fst (is_ready ctrl_address w) = Ok true)
  /\ (forall details, fst (is_ready ctrl_address w) <> Raise (RpcError details))
  /\ (forall e, is_RpcError e = false -> probe ctrl_address w = Raise e ->
        fst (is_ready ctrl_address w) = Raise e).
Proof.
  rewrite is_ready_eq. cbn [fst]. repeat split.
  - intros d ->. reflexivity.
  - intros m ->. reflexivity.
  - intros d. destruct (probe ctrl_address w) as [m|[]]; discriminate.
  - intros e He ->. destruct e; try reflexivity. discriminate He.
Qed.

Lemma is_ready_reports_rpc_failure_witness :
  fst (is_ready "10.0.0.1:9000" Samples.world_down) = Ok false.
Proof.
  apply (proj1 (is_ready_reports_rpc_failure "10.0.0.1:9000" Samples.world_down) "UNAVAILABLE").
  reflexivity.
Defined.

(** C7, as the specification states it, fails when the probe raises
    something that is not an [RpcError]: [is_ready] then returns neither
    [True] nor [False], the exception reaches its caller. *)
Lemma is_ready_reports_rpc_failure_counterexample :
  ~ (exists b, fst (is_ready "10.0.0.1:9000" Samples.world_broken) = Ok b).
Proof. intros (b & Hb). discriminate Hb. Qed.

Section Waiting.
Variable shutdown_event : Z -> bool.
Variable ctrl_address : string.
Variable timeout_ns : option number.
Variable now : Z.

Lemma loop_condition_eq (w : World) :
  loop_condition timeout_ns now w = (test_passes timeout_ns now w, after_test timeout_ns w).
Proof. unfold test_passes, after_test, loop_condition. now destruct timeout_ns. Qed.

Lemma test_world_S (w : World) (k : nat) :
  test_world timeout_ns ctrl_address w (S k)
    = next_test timeout_ns ctrl_address (test_world timeout_ns ctrl_address w k).
Proof. reflexivity. Qed.

(** Between a poll that failed and the next test of the condition there is
    one sleep, asked for 0.1 s, which lasts 100 ms or more. *)
Lemma next_test_sleeps (w : World) :
  naps (next_test timeout_ns ctrl_address w) = (1 # 10)%Q :: naps w
  /\ clock (next_test timeout_ns ctrl_address w)
       = clock (snd (is_ready ctrl_address (after_test timeout_ns w))) + 100000000
         + Z.of_N (oversleep w
                     (clock (snd (is_ready ctrl_address (after_test timeout_ns w))))).
Proof.
  unfold next_test. rewrite is_ready_eq. cbn [snd].
  unfold after_test. destruct timeout_ns; split; reflexivity.
Qed.

Lemma wait_loop_poll_fails (fuel : nat) (w : World) :
  test_passes timeout_ns now w = true ->
  poll_fails shutdown_event ctrl_address (after_test timeout_ns w) ->
  wait_loop (S fuel) timeout_ns now shutdown_event ctrl_address w
    = wait_loop fuel timeout_ns now shutdown_event ctrl_address
        (next_test timeout_ns ctrl_address w).
Proof.
  intros Hc (Hs & d & Hp). cbn [wait_loop]. rewrite loop_condition_eq, Hc, Hs.
  unfold next_test. rewrite is_ready_eq, Hp. reflexivity.
Qed.

Lemma wait_loop_poll_succeeds (fuel : nat) (w : World) :
  test_passes timeout_ns now w = true ->
  poll_succeeds shutdown_event ctrl_address (after_test timeout_ns w) ->
  wait_loop (S fuel) timeout_ns now shutdown_event ctrl_address w
    = (Some (Ok true),
       if shutdown_event (clock (after_test timeout_ns w))
       then after_test timeout_ns w
       else snd (is_ready ctrl_address (after_test timeout_ns w))).
Proof.
  intros Hc Hs. cbn [wait_loop]. rewrite loop_condition_eq, Hc.
  destruct (shutdown_event (clock (after_test timeout_ns w))) eqn:Hset; [reflexivity|].
  destruct Hs as [Hs | (m & Hp)]; [congruence|].
  rewrite is_ready_eq, Hp. reflexivity.
Qed.

Lemma wait_loop_timed_out (fuel : nat) (w : World) :
  test_passes timeout_ns now w = false ->
  wait_loop (S fuel) timeout_ns now shutdown_event ctrl_address w
    = (Some (Ok false), after_test timeout_ns w).
Proof. intros Hc. cbn [wait_loop]. now rewrite loop_condition_eq, Hc. Qed.

Lemma wait_loop_probe_raises (fuel : nat) (w : World) (e : exn) :
  test_passes timeout_ns now w = true ->
  shutdown_event (clock (after_test timeout_ns w)) = false ->
  probe ctrl_address (after_test timeout_ns w) = Raise e ->
  is_RpcError e = false ->
  wait_loop (S fuel) timeout_ns now shutdown_event ctrl_address w
    = (Some (Raise e), snd (is_ready ctrl_address (after_test timeout_ns w))).
Proof.
  intros Hc Hset Hp He. cbn [wait_loop].
  rewrite loop_condition_eq, Hc, Hset, is_ready_eq, Hp. cbn [snd].
  destruct e; try reflexivity. discriminate He.
Qed.

(** The first [k] polls fail: the loop goes on from the world of its test
    number [k]. *)
Lemma wait_loop_skip (k fuel : nat) (w : World) :
  (forall j, (j < k)%nat ->
     test_passes timeout_ns now (test_world timeout_ns ctrl_address w j) = true
     /\ poll_fails shutdown_event ctrl_address (poll_world timeout_ns ctrl_address w j)) ->
  wait_loop (k + fuel) timeout_ns now shutdown_event ctrl_address w
    = wait_loop fuel timeout_ns now shutdown_event ctrl_address
        (test_world timeout_ns ctrl_address w k).
Proof.
  revert fuel. induction k as [|k IH]; intros fuel Hj; [reflexivity|].
  replace (S k + fuel)%nat with (k + S fuel)%nat by lia.
  rewrite IH by (intros j Hlt; apply Hj; lia).
  destruct (Hj k (Nat.lt_succ_diag_r k)) as [Hc Hf].
  now rewrite (wait_loop_poll_fails fuel _ Hc Hf), test_world_S.
Qed.

Lemma test_world_naps (w : World) (k : nat) :
  naps (test_world timeout_ns ctrl_address w k) = repeat (1 # 10)%Q k ++ naps w.
Proof.
  induction k as [|k IH]; [reflexivity|].
  rewrite test_world_S. rewrite (proj1 (next_test_sleeps _)), IH. reflexivity.
Qed.

End Waiting.

(** Without a timeout the loop never returns [False]. *)
Lemma wait_loop_no_timeout_never_false (shutdown_event : Z -> bool) (ctrl_address : string)
    (fuel : nat) (now : Z) (w : World) :
  fst (wait_loop fuel None now shutdown_event ctrl_address w) <> Some (Ok false).
Proof.
  revert w. induction fuel as [|fuel IH]; intros w; [discriminate|].
  cbn [wait_loop loop_condition].
  destruct (shutdown_event (clock w)); [discriminate|].
  destruct (is_ready ctrl_address w) as [[[|]|e] w']; try discriminate. apply IH.
Qed.

(** Without a timeout, the loop is still running after any number of polls
    that failed. *)
Lemma wait_loop_no_timeout_polls_on (shutdown_event : Z -> bool) (ctrl_address : string)
    (fuel : nat) (now : Z) (w : World) :
  (forall j, (j < fuel)%nat ->
     poll_fails shutdown_event ctrl_address (poll_world None ctrl_address w j)) ->
  wait_loop fuel None now shutdown_event ctrl_address w
    = (None, test_world None ctrl_address w fuel).
Proof.
  intros Hf. rewrite <- (Nat.add_0_r fuel) at 1.
  rewrite wait_loop_skip; [reflexivity|]. intros j Hj. split; [reflexivity | now apply Hf].
Qed.

Lemma timeout_ns_of_falsy (t : number) :
  truthy_number t = false -> timeout_ns_of (Some t) = None.
Proof. intros Hz. unfold timeout_ns_of. now rewrite Hz. Qed.

Lemma timeout_ns_of_truthy (t : number) :
  truthy_number t = true -> timeout_ns_of (Some t) = Some (times_1000000000 t).
Proof. intros Hz. unfold timeout_ns_of. now rewrite Hz. Qed.

Lemma world_of_oracle (sync : Z -> Message -> string -> Result Message * N)
    (timeout_ns : option number) (ctrl_address : string) (k : nat) :
  send_message_sync (poll_world timeout_ns ctrl_address (snd (time_ns (Samples.world_of sync))) k)
    = sync.
Proof.
  unfold poll_world.
  assert (H : send_message_sync
                (test_world timeout_ns ctrl_address (snd (time_ns (Samples.world_of sync))) k)
              = sync).
  { induction k as [|k IH]; [reflexivity|].
    rewrite test_world_S. unfold next_test. rewrite is_ready_eq. cbn [snd].
    unfold after_test. destruct timeout_ns; exact IH. }
  unfold after_test. destruct timeout_ns; exact H.
Qed.

(** C8 (as amended).  The loop polls at a fixed interval: between a poll
    that failed and the next test of its condition it sleeps once, and
    every sleep it asks for is of 0.1 s.  The call returns [True] at the
    first poll at which the shutdown signal is set or the probe succeeds.
    With a timeout that is not zero it returns [False] at the first test of
    the condition at which the time elapsed since the call is not below the
    timeout, the polls before it having failed.  With the timeout [None] it
    never returns [False], and is still polling after any number of polls
    that failed. *)
Theorem wait_polls_until_ready_or_timeout (timeout : option number)
    (shutdown_event : Z -> bool) (ctrl_address : string) (w : World) :
  (forall k,
     naps (test_world (timeout_ns_of timeout) ctrl_address (snd (time_ns w)) k)
       = repeat (1 # 10)%Q k ++ naps w
     /\ clock (poll_world (timeout_ns_of timeout) ctrl_address (snd (time_ns w)) k)
          + 100000000
        <= clock (test_world (timeout_ns_of timeout) ctrl_address (snd (time_ns w)) (S k)))
  /\ (forall k fuel,
        (forall j, (j < k)%nat ->
           test_passes (timeout_ns_of timeout) (clock w)
             (test_world (timeout_ns_of timeout) ctrl_address (snd (time_ns w)) j) = true
           /\ poll_fails shutdown_event ctrl_address
                (poll_world (timeout_ns_of timeout) ctrl_address (snd (time_ns w)) j)) ->
        test_passes (timeout_ns_of timeout) (clock w)
          (test_world (timeout_ns_of timeout) ctrl_address (snd (time_ns w)) k) = true ->
        poll_succeeds shutdown_event ctrl_address
          (poll_world (timeout_ns_of timeout) ctrl_address (snd (time_ns w)) k) ->
        (k < fuel)%nat ->
        wait_for_ready_or_shutdown fuel timeout shutdown_event ctrl_address w
          = (Some (Ok true),
             if shutdown_event
                  (clock (poll_world (timeout_ns_of timeout) ctrl_address (snd (time_ns w)) k))
             then poll_world (timeout_ns_of timeout) ctrl_address (snd (time_ns w)) k
             else snd (is_ready ctrl_address
                         (poll_world (timeout_ns_of timeout) ctrl_address
                            (snd (time_ns w)) k))))
  /\ (forall t k fuel,
        timeout = Some t -> truthy_number t = true ->
        (forall j, (j < k)%nat ->
           int_lt (clock (test_world (timeout_ns_of timeout) ctrl_address
                            (snd (time_ns w)) j) - clock w)
             (times_1000000000 t) = true
           /\ poll_fails shutdown_event ctrl_address
                (poll_world (timeout_ns_of timeout) ctrl_address (snd (time_ns w)) j)) ->
        int_lt (clock (test_world (timeout_ns_of timeout) ctrl_address
                         (snd (time_ns w)) k) - clock w)
          (times_1000000000 t) = false ->
        (k < fuel)%nat ->
        wait_for_ready_or_shutdown fuel timeout shutdown_event ctrl_address w
          = (Some (Ok false),
             poll_world (timeout_ns_of timeout) ctrl_address (snd (time_ns w)) k))
  /\ (timeout = None ->
        forall fuel,
          fst (wait_for_ready_or_shutdown fuel timeout shutdown_event ctrl_address w)
            <> Some (Ok false)
          /\ ((forall j, (j < fuel)%nat ->
                 poll_fails shutdown_event ctrl_address
                   (poll_world None ctrl_address (snd (time_ns w)) j)) ->
              fst (wait_for_ready_or_shutdown fuel timeout shutdown_event ctrl_address w)
                = None)).
Proof.
  split; [|split; [|split]].
  - intros k. split.
    + rewrite test_world_naps. reflexivity.
    + rewrite test_world_S. unfold poll_world.
      rewrite (proj2 (next_test_sleeps ctrl_address (timeout_ns_of timeout) _)).
      rewrite is_ready_eq. cbn [snd later clock]. lia.
  - intros k fuel Hbefore Hc Hs Hlt. unfold wait_for_ready_or_shutdown. cbn [time_ns snd].
    replace fuel with (k + S (fuel - S k))%nat by lia.
    rewrite (wait_loop_skip shutdown_event ctrl_address _ _ k _ _ Hbefore).
    apply wait_loop_poll_succeeds; assumption.
  - intros t k fuel -> Ht Hbefore Hk Hlt.
    unfold wait_for_ready_or_shutdown. cbn [time_ns snd] in *.
    rewrite (timeout_ns_of_truthy t Ht) in *.
    replace fuel with (k + S (fuel - S k))%nat by lia.
    rewrite (wait_loop_skip shutdown_event ctrl_address _ _ k).
    + apply wait_loop_timed_out. exact Hk.
    + intros j Hj. exact (Hbefore j Hj).
  - intros -> fuel. unfold wait_for_ready_or_shutdown. cbn [timeout_ns_of time_ns snd]. split.
    + apply wait_loop_no_timeout_never_false.
    + intros Hfail. now rewrite (wait_loop_no_timeout_polls_on _ _ _ _ _ Hfail).
Qed.

(** The scenario of the specification: a timeout of 1 s and a probe that is
    answered from 250 ms on; the call returns [True] at the poll of 300 ms,
    after three sleeps. *)
Lemma wait_polls_until_ready_or_timeout_witness :
  fst (wait_for_ready_or_shutdown 4 (Some Samples.float_one) Samples.never_set
         "10.0.0.1:9000" Samples.world_up_at_250ms) = Some (Ok true)
  /\ clock (snd (wait_for_ready_or_shutdown 4 (Some Samples.float_one) Samples.never_set
                   "10.0.0.1:9000" Samples.world_up_at_250ms)) = 300000000.
Proof.
  rewrite (proj1 (proj2 (wait_polls_until_ready_or_timeout (Some Samples.float_one)
                           Samples.never_set "10.0.0.1:9000" Samples.world_up_at_250ms))
             3%nat 4%nat).
  - split; reflexivity.
  - intros j Hj. destruct j as [|[|[|j]]]; [| | | lia];
      (split; [vm_compute; reflexivity
              | split; [reflexivity | exists "UNAVAILABLE"; vm_compute; reflexivity]]).
  - vm_compute. reflexivity.
  - right. eexists. vm_compute. reflexivity.
  - lia.
Defined.

(** C8, as the specification states it, fails for the timeout 0: no poll
    succeeds, the timeout has elapsed at the first test of the loop, and the
    call never returns [False]. *)
Lemma wait_polls_until_ready_or_timeout_counterexample :
  (forall j, poll_fails Samples.never_set "10.0.0.1:9000"
               (poll_world (timeout_ns_of (Some Samples.float_zero)) "10.0.0.1:9000"
                  (snd (time_ns Samples.world_down)) j))
  /\ ~ (exists fuel,
          fst (wait_for_ready_or_shutdown fuel (Some Samples.float_zero) Samples.never_set
                 "10.0.0.1:9000" Samples.world_down) = Some (Ok false)).
Proof.
  split.
  - intros j. split; [reflexivity|]. exists "UNAVAILABLE".
    unfold probe, Samples.world_down. now rewrite world_of_oracle.
  - intros (fuel & Hfalse). revert Hfalse. apply wait_loop_no_timeout_never_false.
Qed.

(** The float 0.1 as timeout: its product with 1000000000 is rounded to
    100000000.0, and on a clock that shows 100 ms at the second test the
    call returns [False] there, after one poll. *)
Example wait_a_tenth_of_a_second :
  times_1000000000 Samples.float_tenth = PyFloat (float_of_int 100000000)
  /\ wait_for_ready_or_shutdown 2 (Some Samples.float_tenth) Samples.never_set
       "10.0.0.1:9000" Samples.world_down
     = (Some (Ok false),
        poll_world (timeout_ns_of (Some Samples.float_tenth)) "10.0.0.1:9000"
          (snd (time_ns Samples.world_down)) 1).
Proof. split; vm_compute; reflexivity. Qed.

(** C10.  A timeout equal to zero is the timeout [None]: the two calls do
    the same after any number of polls, the call never returns [False], and
    it is still polling after any number of polls that failed. *)
Theorem zero_timeout_is_no_timeout (t : number) (fuel : nat)
    (shutdown_event : Z -> bool) (ctrl_address : string) (w : World) :
  truthy_number t = false ->
  wait_for_ready_or_shutdown fuel (Some t) shutdown_event ctrl_address w
    = wait_for_ready_or_shutdown fuel None shutdown_event ctrl_address w
  /\ fst (wait_for_ready_or_shutdown fuel (Some t) shutdown_event ctrl_address w)
       <> Some (Ok false)
  /\ ((forall j, (j < fuel)%nat ->
         poll_fails shutdown_event ctrl_address
           (poll_world None ctrl_address (snd (time_ns w)) j)) ->
      wait_for_ready_or_shutdown fuel (Some t) shutdown_event ctrl_address w
        = (None, test_world None ctrl_address (snd (time_ns w)) fuel)).
Proof.
  intros Hz. unfold wait_for_ready_or_shutdown.
  rewrite (timeout_ns_of_falsy t Hz). cbn [timeout_ns_of time_ns snd].
  split; [reflexivity|]. split.
  - apply wait_loop_no_timeout_never_false.
  - intros Hfail. now apply wait_loop_no_timeout_polls_on.
Qed.

Lemma zero_timeout_is_no_timeout_witness :
  wait_for_ready_or_shutdown 5 (Some Samples.float_zero) Samples.never_set "10.0.0.1:9000"
    Samples.world_down
    = wait_for_ready_or_shutdown 5 None Samples.never_set "10.0.0.1:9000" Samples.world_down
  /\ fst (wait_for_ready_or_shutdown 5 (Some Samples.float_zero) Samples.never_set
            "10.0.0.1:9000" Samples.world_down) <> Some (Ok false)
  /\ ((forall j, (j < 5)%nat ->
         poll_fails Samples.never_set "10.0.0.1:9000"
           (poll_world None "10.0.0.1:9000" (snd (time_ns Samples.world_down)) j)) ->
      wait_for_ready_or_shutdown 5 (Some Samples.float_zero) Samples.never_set
        "10.0.0.1:9000" Samples.world_down
        = (None, test_world None "10.0.0.1:9000" (snd (time_ns Samples.world_down)) 5)).
Proof.
  apply (zero_timeout_is_no_timeout Samples.float_zero 5). reflexivity.
Defined.

(** * Further properties of the code *)

(** ** Call and the control plane, for any connection pool *)

Section CallInvariants.
Context {P : Type} `{ConnectionPool P}.
Variable self : HeadRuntime.

Lemma state_eta (st : HeadState P) :
  st = {| connection_pool := connection_pool st;
          is_cancel := is_cancel st;
          logger := logger st |}.
Proof. now destruct st. Qed.

(** What [_handle_control_request] does, by the request of the message. *)
Lemma handle_control_request_cases (msg : Message) (st : HeadState P) :
  match request msg with
  | DataRequest _ =>
      _handle_control_request msg st = (Raise (AttributeError "command"), st)
  | ControlRequest c es =>
      if String.eqb c "TERMINATE"
      then _handle_control_request msg st = (Raise RuntimeTerminated, st)
      else if String.eqb c "ACTIVATE"
      then _handle_control_request msg st =
             (Ok msg,
              {| connection_pool :=
                   fold_left (fun p e =>
                     add_connection "worker" (connection_string e)
                       (if HasField_shard_id e then Some (shard_id e) else None) p)
                     es (connection_pool st);
                 is_cancel := is_cancel st;
                 logger := logger st |})
      else if String.eqb c "DEACTIVATE"
      then _handle_control_request msg st =
             (Ok msg,
              {| connection_pool :=
                   fold_left (fun p e =>
                     remove_connection "worker" (connection_string e) (Some (shard_id e)) p)
                     es (connection_pool st);
                 is_cancel := is_cancel st;
                 logger := logger st |})
      else _handle_control_request msg st = (Ok msg, st)
  end.
Proof.
  destruct (request msg) as [c es|ds] eqn:Hreq.
  - destruct (String.eqb c "TERMINATE") eqn:Ht.
    { apply String.eqb_eq in Ht as ->. apply handle_terminate. now rewrite Hreq. }
    destruct (String.eqb c "ACTIVATE") eqn:Ha.
    { apply String.eqb_eq in Ha as ->. now apply handle_activate. }
    destruct (String.eqb c "DEACTIVATE") eqn:Hd.
    { apply String.eqb_eq in Hd as ->. now apply handle_deactivate. }
    apply (handle_unknown_command msg c es st Hreq); now apply String.eqb_neq.
  - unfold _handle_control_request. now rewrite Hreq.
Qed.

Lemma fold_add_worker_updates (es : list RelatedEntity) (p0 p : P) :
  worker_updates p0 p ->
  worker_updates p0
    (fold_left (fun p e =>
       add_connection "worker" (connection_string e)
         (if HasField_shard_id e then Some (shard_id e) else None) p) es p).
Proof.
  revert p. induction es as [|e es IH]; intros p Hp; [exact Hp|].
  cbn [fold_left]. apply IH. now constructor.
Qed.

Lemma fold_remove_worker_updates (es : list RelatedEntity) (p0 p : P) :
  worker_updates p0 p ->
  worker_updates p0
    (fold_left (fun p e =>
       remove_connection "worker" (connection_string e) (Some (shard_id e)) p) es p).
Proof.
  revert p. induction es as [|e es IH]; intros p Hp; [exact Hp|].
  cbn [fold_left]. apply IH. now constructor.
Qed.

(** One control request changes nothing but the pool, and the pool by
    updates of the role [worker] only. *)
Lemma handle_control_request_shape (msg : Message) (st : HeadState P) (p0 : P) :
  worker_updates p0 (connection_pool st) ->
  exists p', snd (_handle_control_request msg st)
               = {| connection_pool := p'; is_cancel := is_cancel st; logger := logger st |}
             /\ worker_updates p0 p'.
Proof.
  intros Hp. pose proof (handle_control_request_cases msg st) as Hc.
  destruct (request msg) as [c es|ds].
  - destruct (String.eqb c "TERMINATE").
    { rewrite Hc. exists (connection_pool st). split; [apply state_eta | exact Hp]. }
    destruct (String.eqb c "ACTIVATE").
    { rewrite Hc. eexists. split; [reflexivity | now apply fold_add_worker_updates]. }
    destruct (String.eqb c "DEACTIVATE").
    { rewrite Hc. eexists. split; [reflexivity | now apply fold_remove_worker_updates]. }
    rewrite Hc. exists (connection_pool st). split; [apply state_eta | exact Hp].
  - rewrite Hc. exists (connection_pool st). split; [apply state_eta | exact Hp].
Qed.

Lemma control_loop_shape (messages : list Message) (r : option Message)
    (st : HeadState P) (p0 : P) :
  worker_updates p0 (connection_pool st) ->
  exists p', snd (control_loop r messages st)
               = {| connection_pool := p'; is_cancel := is_cancel st; logger := logger st |}
             /\ worker_updates p0 p'.
Proof.
  revert r st. induction messages as [|m ms IH]; intros r st Hp.
  - exists (connection_pool st). split; [apply state_eta | exact Hp].
  - cbn [control_loop]. unfold bind.
    destruct (handle_control_request_shape m st p0 Hp) as (p1 & E1 & Hp1).
    destruct (_handle_control_request m st) as [[a|e] st1]; cbn [snd] in E1; subst st1.
    + destruct (IH (Some a)
                 {| connection_pool := p1; is_cancel := is_cancel st; logger := logger st |}
                 Hp1) as (p' & E & Hp').
      exists p'. now split.
    + exists p1. now split.
Qed.

(** The data path reads the state and leaves it as it is. *)
Lemma handle_data_requests_state (messages : list Message) (st : HeadState P) :
  snd (_handle_data_requests self messages st) = st.
Proof.
  unfold _handle_data_requests, bind.
  pose proof (collect_worker_results_state self messages st) as Hst.
  destruct (collect_worker_results self messages st) as [[R|e] st']; cbn [snd] in Hst;
    subst st'; [|reflexivity].
  destruct (truthy_str (uses_after_address self)); [reflexivity|].
  destruct (1 <? length R)%nat.
  { unfold lift. destruct (flatten_docs (rev (map request R))); [|reflexivity].
    now destruct (item0 R). }
  now destruct (length R =? 1)%nat.
Qed.

Lemma handle_messages_shape (messages : list Message) (st : HeadState P) :
  exists p', snd (_handle_messages self messages st)
               = {| connection_pool := p'; is_cancel := is_cancel st; logger := logger st |}
             /\ worker_updates (connection_pool st) p'.
Proof.
  unfold _handle_messages. destruct messages as [|m0 rest].
  - exists (connection_pool st). split; [apply state_eta | constructor].
  - cbn [item0]. unfold lift, bind at 1.
    destruct (negb (String.eqb (request_type (envelope m0)) "DataRequest")).
    + apply control_loop_shape. constructor.
    + exists (connection_pool st). split; [|constructor].
      unfold bind. pose proof (handle_data_requests_state (m0 :: rest) st) as Hst.
      destruct (_handle_data_requests self (m0 :: rest) st) as [[a|e] st'];
        cbn [snd] in Hst |- *; subst st'; apply state_eta.
Qed.

(** X1.  [Call] on the empty batch raises [IndexError]: the error is logged
    and the pool and the cancel event stay as they are. *)
Theorem call_empty_batch (st : HeadState P) :
  Call self [] st
    = (Raise IndexError,
       {| connection_pool := connection_pool st;
          is_cancel := is_cancel st;
          logger := logger st ++ [log_record self IndexError] |}).
Proof. reflexivity. Qed.

(** X2.  [Call] never raises [RuntimeTerminated], and it logs exactly when
    it raises an exception that derives from [Exception]: one record, for
    the exception raised, after the records that were there.  It logs
    nothing when it returns and when it lets through an exception that
    derives from [BaseException] only. *)
Theorem call_logs_what_it_raises (messages : list Message) (st : HeadState P) :
  fst (Call self messages st) <> Raise RuntimeTerminated
  /\ logger (snd (Call self messages st))
       = logger st ++ match fst (Call self messages st) with
                      | Raise ex => if logged_by_Call ex then [log_record self ex] else []
                      | Ok _ => []
                      end.
Proof.
  unfold Call. destruct (handle_messages_shape messages st) as (p' & E & _).
  destruct (_handle_messages self messages st) as [[r|e] st']; cbn [snd] in E; subst st'.
  - split; [discriminate|]. cbn. now rewrite app_nil_r.
  - destruct e; (split; [discriminate|]); cbn; try reflexivity; now rewrite app_nil_r.
Qed.

Lemma call_pool_worker_updates (messages : list Message) (st : HeadState P) :
  worker_updates (connection_pool st) (connection_pool (snd (Call self messages st))).
Proof.
  unfold Call. destruct (handle_messages_shape messages st) as (p' & E & Hp).
  destruct (_handle_messages self messages st) as [[r|e] st']; cbn [snd] in E; subst st'.
  - exact Hp.
  - destruct e; exact Hp.
Qed.

(** X3.  Whatever the batch, the pool after [Call] is the pool before it
    with connections of the role [worker] added and removed; on a Data batch
    it is the pool before it. *)
Theorem call_updates_workers_only (messages : list Message) (st : HeadState P) :
  worker_updates (connection_pool st) (connection_pool (snd (Call self messages st)))
  /\ (data_batch messages ->
      connection_pool (snd (Call self messages st)) = connection_pool st).
Proof.
  split; [apply call_pool_worker_updates|].
  intros Hb. unfold Call. rewrite (handle_messages_data self messages st Hb).
  unfold bind. pose proof (handle_data_requests_state messages st) as Hst.
  destruct (_handle_data_requests self messages st) as [[a|e] st'];
    cbn [snd] in Hst; subst st'; [reflexivity|]. now destruct e.
Qed.

Lemma control_loop_result (messages : list Message) (r : option Message)
    (st : HeadState P) :
  Forall is_control messages ->
  fst (control_loop r messages st)
    = if existsb is_terminate messages then Raise RuntimeTerminated
      else Ok (last_of r messages).
Proof.
  intros HF. revert r st. induction HF as [|m ms (c & es & Hm) _ IH]; intros r st.
  - reflexivity.
  - cbn [control_loop existsb]. unfold is_terminate at 1, bind.
    pose proof (handle_control_request_cases m st) as Hc. rewrite Hm in Hc |- *.
    destruct (String.eqb c "TERMINATE"); [now rewrite Hc|].
    cbn [orb]. unfold last_of. cbn [fold_left]. fold (last_of (Some m) ms).
    destruct (String.eqb c "ACTIVATE"); [rewrite Hc; apply IH|].
    destruct (String.eqb c "DEACTIVATE"); rewrite Hc; apply IH.
Qed.

(** X4.  On a Control batch of control requests the cancel event is set
    exactly when the batch contains a TERMINATE, and [Call] returns [None]
    exactly then. *)
Theorem call_cancels_on_terminate (messages : list Message) (st : HeadState P) :
  control_batch messages ->
  Forall is_control messages ->
  is_cancel (snd (Call self messages st))
    = is_cancel st || existsb is_terminate messages
  /\ (fst (Call self messages st) = Ok None <-> existsb is_terminate messages = true).
Proof.
  intros (m0 & rest & -> & Hty) HF. unfold Call.
  rewrite (handle_messages_control self m0 rest st Hty).
  pose proof (control_loop_result (m0 :: rest) None st HF) as Hres.
  destruct (control_loop_shape (m0 :: rest) None st (connection_pool st)
              (worker_updates_refl _)) as (p' & E & _).
  destruct (control_loop None (m0 :: rest) st) as [res st']; cbn [fst snd] in *; subst st'.
  destruct (existsb is_terminate (m0 :: rest)); subst res.
  - cbn. rewrite orb_true_r. now split.
  - cbn [is_cancel]. rewrite orb_false_r. split; [reflexivity|].
    rewrite last_of_last. destruct (last (m0 :: rest)) eqn:El.
    + split; discriminate.
    + apply last_None in El. discriminate.
Qed.

End CallInvariants.

Lemma call_cancels_on_terminate_witness :
  is_cancel (snd (Call Samples.head
      [Samples.activate [Samples.entity1]; Samples.terminate] (Samples.state_of ∅ [])))
    = is_cancel (Samples.state_of ∅ [])
      || existsb is_terminate [Samples.activate [Samples.entity1]; Samples.terminate]
  /\ (fst (Call Samples.head
        [Samples.activate [Samples.entity1]; Samples.terminate] (Samples.state_of ∅ []))
        = Ok None
      <-> existsb is_terminate [Samples.activate [Samples.entity1]; Samples.terminate] = true).
Proof.
  apply (call_cancels_on_terminate Samples.head).
  - eexists _, _. split; [reflexivity | discriminate].
  - repeat constructor; eexists _, _; reflexivity.
Defined.

(** ** The control plane on the Connection Registry *)

Lemma fold_activate_pool (es : list RelatedEntity) (p : GrpcConnectionPool) :
  fold_left (fun p e =>
    add_connection "worker" (connection_string e)
      (if HasField_shard_id e then Some (shard_id e) else None) p) es p
  = {| connections := connections p ∪ list_to_set (map activated_registration es);
       network := network p |}.
Proof.
  revert p. induction es as [|e es IH]; intros p.
  - destruct p as [C N]. cbn [fold_left map connections network]. f_equal.
    rewrite list_to_set_nil. now rewrite (right_id_L ∅ (∪)).
  - cbn [fold_left map]. rewrite IH, list_to_set_cons.
    cbn [add_connection GrpcConnectionPool_pool connections network].
    f_equal. fold (activated_registration e).
    rewrite (assoc_L (∪)). f_equal. apply (comm_L (∪)).
Qed.

Lemma fold_deactivate_pool (es : list RelatedEntity) (p : GrpcConnectionPool) :
  fold_left (fun p e =>
    remove_connection "worker" (connection_string e) (Some (shard_id e)) p) es p
  = {| connections := connections p ∖ list_to_set (map deactivated_registration es);
       network := network p |}.
Proof.
  revert p. induction es as [|e es IH]; intros p.
  - destruct p as [C N]. cbn [fold_left map connections network]. f_equal.
    rewrite list_to_set_nil. apply set_eq. intros x.
    rewrite elem_of_difference, elem_of_empty. tauto.
  - cbn [fold_left map]. rewrite IH, list_to_set_cons.
    cbn [remove_connection GrpcConnectionPool_pool connections network].
    f_equal. fold (deactivated_registration e). apply set_eq. intros x.
    rewrite !elem_of_difference, elem_of_union. tauto.
Qed.

(** X5.  ACTIVATE returns its message and leaves in the registry what was
    there and, for every entity of the command, the registration
    [(worker, address:port, shard_id or none)]; nothing else changes. *)
Theorem activate_registers_all (msg : Message) (es : list RelatedEntity)
    (st : HeadState GrpcConnectionPool) :
  request msg = ControlRequest "ACTIVATE" es ->
  _handle_control_request msg st
    = (Ok msg,
       {| connection_pool :=
            {| connections :=
                 connections (connection_pool st)
                 ∪ list_to_set (map activated_registration es);
               network := network (connection_pool st) |};
          is_cancel := is_cancel st;
          logger := logger st |})
  /\ forall e, e ∈ es ->
       ("worker", connection_string e, shard_id_field e)
         ∈ connections (connection_pool (snd (_handle_control_request msg st))).
Proof.
  intros Hreq. rewrite (handle_activate msg es st Hreq), fold_activate_pool.
  split; [reflexivity|]. intros e He. cbn [snd connection_pool connections].
  apply elem_of_union_r, elem_of_list_to_set, list_elem_of_fmap.
  exists e. split; [|exact He].
  unfold activated_registration, HasField_shard_id, shard_id.
  now destruct (shard_id_field e).
Qed.

(** X6.  DEACTIVATE never raises: it returns its message and leaves the
    registry without the registrations [(worker, address:port, shard_id)]
    of the entities of the command, where an entity without shard_id counts
    for shard 0. *)
Theorem deactivate_removes_all (msg : Message) (es : list RelatedEntity)
    (st : HeadState GrpcConnectionPool) :
  request msg = ControlRequest "DEACTIVATE" es ->
  _handle_control_request msg st
    = (Ok msg,
       {| connection_pool :=
            {| connections :=
                 connections (connection_pool st)
                 ∖ list_to_set (map deactivated_registration es);
               network := network (connection_pool st) |};
          is_cancel := is_cancel st;
          logger := logger st |}).
Proof.
  intros Hreq. now rewrite (handle_deactivate msg es st Hreq), fold_deactivate_pool.
Qed.

(** X7.  DEACTIVATE of entities none of which is registered returns
    normally and leaves the whole state as it is. *)
Theorem deactivate_unregistered_is_noop (msg : Message) (es : list RelatedEntity)
    (st : HeadState GrpcConnectionPool) :
  request msg = ControlRequest "DEACTIVATE" es ->
  (forall e, e ∈ es -> deactivated_registration e ∉ connections (connection_pool st)) ->
  _handle_control_request msg st = (Ok msg, st).
Proof.
  intros Hreq Hno. rewrite (handle_deactivate msg es st Hreq), fold_deactivate_pool.
  destruct st as [[C N] c l]. cbn [connection_pool connections network is_cancel logger] in *.
  do 3 f_equal. apply set_eq. intros x. rewrite elem_of_difference, elem_of_list_to_set.
  split; [tauto|]. intros Hx. split; [exact Hx|].
  intros Hin. apply list_elem_of_fmap in Hin as (e & -> & He). exact (Hno e He Hx).
Qed.

(** X8.  ACTIVATE is idempotent: processing the same ACTIVATE a second time
    changes nothing. *)
Theorem activate_twice_is_once (msg : Message) (es : list RelatedEntity)
    (st : HeadState GrpcConnectionPool) :
  request msg = ControlRequest "ACTIVATE" es ->
  process_each [msg; msg] st = process_each [msg] st.
Proof.
  intros Hreq. unfold process_each. cbn [fold_left].
  rewrite (handle_activate msg es st Hreq). cbn [snd].
  rewrite (handle_activate msg es _ Hreq). cbn [snd connection_pool is_cancel logger].
  rewrite !fold_activate_pool. cbn [connections network]. do 2 f_equal.
  apply set_eq. intros x. rewrite !elem_of_union. tauto.
Qed.

(** X9.  For an entity without shard_id, ACTIVATE registers it under no
    shard and DEACTIVATE removes the registration of shard 0: after the two
    the entity is still registered. *)
Theorem deactivate_misses_entity_without_shard (e : RelatedEntity) (am dm : Message)
    (st : HeadState GrpcConnectionPool) :
  shard_id_field e = None ->
  request am = ControlRequest "ACTIVATE" [e] ->
  request dm = ControlRequest "DEACTIVATE" [e] ->
  ("worker", connection_string e, None)
    ∈ connections (connection_pool (process_each [am; dm] st)).
Proof.
  intros Hs Ha Hd. unfold process_each. cbn [fold_left].
  rewrite (handle_activate am [e] st Ha). cbn [snd].
  rewrite (handle_deactivate dm [e] _ Hd).
  cbn [snd fold_left connection_pool connections add_connection remove_connection
       GrpcConnectionPool_pool].
  unfold HasField_shard_id, shard_id. rewrite Hs.
  apply elem_of_difference. split.
  - apply elem_of_union_l. now apply elem_of_singleton_2.
  - intros Hin. apply elem_of_singleton in Hin. discriminate Hin.
Qed.

Lemma worker_updates_other_roles (p p' : GrpcConnectionPool) :
  worker_updates p p' -> other_roles p' = other_roles p.
Proof.
  induction 1 as [p|p p' a s _ IH|p p' a s _ IH]; [reflexivity| |]; rewrite <- IH;
    unfold other_roles; cbn [add_connection remove_connection GrpcConnectionPool_pool
                             connections];
    apply set_eq; intros [[r a'] s']; rewrite !elem_of_filter; cbn [fst].
  - rewrite elem_of_union, elem_of_singleton. split; [|tauto].
    intros [Hr [Heq|Hin]]; [|tauto]. injection Heq as -> _ _. contradiction.
  - rewrite elem_of_difference, elem_of_singleton. split; [tauto|].
    intros [Hr Hin]. split; [exact Hr|]. split; [exact Hin|].
    intros Heq. injection Heq as -> _ _. contradiction.
Qed.

(** X10.  Whatever the batch, [Call] leaves the registrations of the roles
    other than [worker], those of the pre- and post-stage among them, as
    they are. *)
Theorem call_keeps_other_roles (self : HeadRuntime) (messages : list Message)
    (st : HeadState GrpcConnectionPool) :
  other_roles (connection_pool (snd (Call self messages st)))
    = other_roles (connection_pool st).
Proof. apply worker_updates_other_roles, call_pool_worker_updates. Qed.

(** X11.  [__init__] registers no worker; the registry it leaves holds
    what the pool held, the [uses_before] address when one is configured and
    not empty, and the [uses_after] address likewise; and the polling of the
    runtime is that of [args], or ANY when [args] has none. *)
Theorem init_registers_stages (args : Args)
    (order : list (Result Message) -> list (Result Message)) (pool : GrpcConnectionPool) :
  workers (snd (init args order pool)) = workers pool
  /\ (forall ep,
        ep ∈ connections (snd (init args order pool))
        <-> ep ∈ connections pool
            \/ (exists a, args_uses_before_address args = Some a /\ a <> ""
                          /\ ep = ("uses_before", a, None))
            \/ (exists a, args_uses_after_address args = Some a /\ a <> ""
                          /\ ep = ("uses_after", a, None)))
  /\ polling (fst (init args order pool))
       = match args_polling args with Some p => p | None => ANY end.
Proof.
  assert (Hmem : forall ep,
    ep ∈ connections (snd (init args order pool))
    <-> ep ∈ connections pool
        \/ (exists a, args_uses_before_address args = Some a /\ a <> ""
                      /\ ep = ("uses_before", a, None))
        \/ (exists a, args_uses_after_address args = Some a /\ a <> ""
                      /\ ep = ("uses_after", a, None))).
  { intros ep. unfold init, truthy_str. cbn [snd].
    destruct (args_uses_before_address args) as [b|],
             (args_uses_after_address args) as [a|];
      repeat match goal with
             | |- context [String.eqb ?x ""] =>
                 let E := fresh "E" in
                 destruct (String.eqb x "") eqn:E;
                 [apply String.eqb_eq in E | apply String.eqb_neq in E]
             end;
      cbn [negb add_connection GrpcConnectionPool_pool connections];
      rewrite ?elem_of_union, ?elem_of_singleton;
      split; intros Hx;
      repeat match goal with
             | Hd : _ \/ _ |- _ => destruct Hd
             | He : exists _, _ |- _ => destruct He as (? & ? & ? & ?)
             end;
      subst; try congruence; try tauto;
      try (right; left; eexists; repeat split; eauto; fail);
      try (right; right; eexists; repeat split; eauto; fail);
      try (left; reflexivity); try (right; left; reflexivity);
      try (simplify_eq; tauto). }
  split; [|split; [exact Hmem | reflexivity]].
  unfold workers. apply set_eq. intros [[r a] s]. rewrite !elem_of_filter, Hmem. cbn [fst].
  split; [|tauto]. intros [-> [Hin|[(b & _ & _ & Heq)|(b & _ & _ & Heq)]]];
    [tauto | discriminate Heq | discriminate Heq].
Qed.

Lemma activate_registers_all_witness :
  _handle_control_request (Samples.activate [Samples.entity1; Samples.entity_no_shard])
    (Samples.state_of ∅ [])
    = (Ok (Samples.activate [Samples.entity1; Samples.entity_no_shard]),
       {| connection_pool :=
            {| connections :=
                 connections (connection_pool (Samples.state_of ∅ []))
                 ∪ list_to_set (map activated_registration
                                  [Samples.entity1; Samples.entity_no_shard]);
               network := network (connection_pool (Samples.state_of ∅ [])) |};
          is_cancel := is_cancel (Samples.state_of ∅ []);
          logger := logger (Samples.state_of ∅ []) |})
  /\ forall e, e ∈ [Samples.entity1; Samples.entity_no_shard] ->
       ("worker", connection_string e, shard_id_field e)
         ∈ connections (connection_pool (snd (_handle_control_request
             (Samples.activate [Samples.entity1; Samples.entity_no_shard])
             (Samples.state_of ∅ [])))).
Proof.
  apply (activate_registers_all
           (Samples.activate [Samples.entity1; Samples.entity_no_shard])).
  reflexivity.
Defined.

Lemma deactivate_removes_all_witness :
  _handle_control_request (Samples.deactivate [Samples.entity1])
    (Samples.state_of {[ ("worker", "10.0.0.1:8081", Some 1) ]} [])
    = (Ok (Samples.deactivate [Samples.entity1]),
       {| connection_pool :=
            {| connections :=
                 connections (connection_pool
                   (Samples.state_of {[ ("worker", "10.0.0.1:8081", Some 1) ]} []))
                 ∖ list_to_set (map deactivated_registration [Samples.entity1]);
               network := network (connection_pool
                   (Samples.state_of {[ ("worker", "10.0.0.1:8081", Some 1) ]} [])) |};
          is_cancel := false;
          logger := [] |}).
Proof.
  apply (deactivate_removes_all (Samples.deactivate [Samples.entity1])). reflexivity.
Defined.

Lemma deactivate_unregistered_is_noop_witness :
  _handle_control_request (Samples.deactivate [Samples.entity1]) (Samples.state_of ∅ [])
    = (Ok (Samples.deactivate [Samples.entity1]), Samples.state_of ∅ []).
Proof.
  apply (deactivate_unregistered_is_noop (Samples.deactivate [Samples.entity1])
           [Samples.entity1]).
  - reflexivity.
  - intros e _. apply not_elem_of_empty.
Defined.

Lemma activate_twice_is_once_witness :
  process_each [Samples.activate [Samples.entity1]; Samples.activate [Samples.entity1]]
    (Samples.state_of ∅ [])
  = process_each [Samples.activate [Samples.entity1]] (Samples.state_of ∅ []).
Proof.
  apply (activate_twice_is_once (Samples.activate [Samples.entity1]) [Samples.entity1]).
  reflexivity.
Defined.

Lemma deactivate_misses_entity_without_shard_witness :
  ("worker", connection_string Samples.entity_no_shard, None)
    ∈ connections (connection_pool
        (process_each [Samples.activate [Samples.entity_no_shard];
                       Samples.deactivate [Samples.entity_no_shard]]
           (Samples.state_of ∅ []))).
Proof.
  apply (deactivate_misses_entity_without_shard Samples.entity_no_shard).
  - reflexivity.
  - reflexivity.
  - reflexivity.
Defined.

(** ** The data plane, for any connection pool *)

Lemma await_all_first_failure {A : Type} (pre : list A) (e : exn) (rest : list (Result A)) :
  await_all (map Ok pre ++ Raise e :: rest) = Raise e.
Proof.
  induction pre as [|a pre IH]; [reflexivity|].
  cbn [map app await_all]. now rewrite IH.
Qed.

Section DataPlaneMore.
Context {P : Type} `{ConnectionPool P}.
Variable self : HeadRuntime.

(** What [Call] makes of the outcome of the data path. *)
Lemma call_data_batch (messages : list Message) (st : HeadState P) :
  data_batch messages ->
  Call self messages st
    = match _handle_data_requests self messages st with
      | (Ok m, _) => (Ok (Some m), st)
      | (Raise RuntimeTerminated, _) => (Ok None, cancel st)
      | (Raise ex, _) =>
          (Raise ex, if logged_by_Call ex then logger_error self ex st else st)
      end.
Proof.
  intros Hb. unfold Call. rewrite (handle_messages_data self messages st Hb).
  unfold bind, ret. pose proof (handle_data_requests_state self messages st) as Hst.
  destruct (_handle_data_requests self messages st) as [[m|e] st'];
    cbn [snd] in Hst; subst st'; [reflexivity|]. now destruct e.
Qed.

Lemma handle_data_requests_after_collect (messages : list Message) (st : HeadState P)
    (R : list Message) :
  fst (collect_worker_results self messages st) = Ok R ->
  _handle_data_requests self messages st
    = (if truthy_str (uses_after_address self) then
         pool <- gets connection_pool ;;
         lift (send_messages_once R "uses_after" pool)
       else if (1 <? length R)%nat then
         result <- lift (flatten_docs (rev (map request R))) ;;
         response_message <- lift (item0 R) ;;
         lift (replace_docs response_message result)
       else if (length R =? 1)%nat then lift (item0 R)
       else raise (no_response_error self)) st.
Proof.
  intros HR. unfold _handle_data_requests.
  now rewrite (bind_ok _ _ _ _ _ (collect_worker_results_eq self _ _ _ HR)).
Qed.

(** X12.  With a [uses_after] configured, whatever the number of results
    the fan-out collected, they are sent to it together and [Call] returns
    its reply; the state is unchanged. *)
Theorem uses_after_reply_is_returned (messages : list Message) (st : HeadState P)
    (R : list Message) (reply : Message) :
  data_batch messages ->
  truthy_str (uses_after_address self) = true ->
  fst (collect_worker_results self messages st) = Ok R ->
  send_messages_once R "uses_after" (connection_pool st) = Ok reply ->
  Call self messages st = (Ok (Some reply), st).
Proof.
  intros Hb Hua HR Hreply. rewrite (call_data_batch messages st Hb).
  rewrite (handle_data_requests_after_collect messages st R HR), Hua.
  unfold bind, gets, lift. now rewrite Hreply.
Qed.

(** X13.  The local merge loses and invents no document: under the
    conditions of the merge, the documents of the reply are a permutation
    of the documents of the results, and as many as theirs together. *)
Theorem local_merge_keeps_documents (messages : list Message) (st : HeadState P)
    (R : list Message) :
  data_batch messages ->
  no_uses_after self ->
  fst (collect_worker_results self messages st) = Ok R ->
  (1 < length R)%nat ->
  Forall is_data R ->
  exists m, Call self messages st = (Ok (Some m), st)
    /\ Permutation (docs_of m) (concat (map docs_of R))
    /\ length (docs_of m) = list_sum (map (fun r => length (docs_of r)) R).
Proof.
  intros Hb Hua HR Hlen Hdata.
  destruct R as [|r0 R']; [cbn in Hlen; lia|].
  destruct (Forall_cons_1 _ _ _ Hdata) as [(ds0 & Hr0) _].
  assert (Hperm : Permutation (concat (map docs_of (rev (r0 :: R'))))
                              (concat (map docs_of (r0 :: R')))).
  { rewrite <- !flat_map_concat_map. apply Permutation_flat_map.
    symmetry. apply Permutation_rev. }
  exists {| envelope := envelope r0;
            request := DataRequest (concat (map docs_of (rev (r0 :: R')))) |}.
  split; [|split].
  - rewrite (call_data_batch messages st Hb).
    rewrite (handle_data_requests_after_collect messages st _ HR).
    unfold no_uses_after in Hua. rewrite Hua.
    apply Nat.ltb_lt in Hlen. rewrite Hlen.
    rewrite <- map_rev, (flatten_docs_data (rev (r0 :: R'))) by now apply Forall_rev.
    cbn [item0]. unfold lift, bind, replace_docs. now rewrite Hr0.
  - exact Hperm.
  - unfold docs_of at 1. cbn [request].
    rewrite (Permutation_length Hperm), length_concat, map_map. reflexivity.
Qed.

(** X14.  Without a pre-stage, when a task of the fan-out fails, the first
    such failure in completion order fails the call, whatever the other
    workers replied and whether or not a [uses_after] is configured: the
    exception is raised and no message is returned; it is logged when it
    derives from [Exception]. *)
Theorem worker_failure_fails_call (messages : list Message) (st : HeadState P)
    (pre : list Message) (e : exn) (rest : list (Result Message)) :
  data_batch messages ->
  truthy_str (uses_before_address self) = false ->
  as_completed self (send_messages messages "worker" (polling self) (connection_pool st))
    = map Ok pre ++ Raise e :: rest ->
  e <> RuntimeTerminated ->
  Call self messages st
    = (Raise e, if logged_by_Call e then logger_error self e st else st).
Proof.
  intros Hb Hub Htasks He. rewrite (call_data_batch messages st Hb).
  unfold _handle_data_requests, collect_worker_results. rewrite Hub.
  unfold bind, ret, gets, lift. rewrite Htasks, await_all_first_failure.
  now destruct e.
Qed.

(** X15.  With a [uses_before] configured, a failure of the pre-stage fails
    the call, whatever the workers and the post-stage would have replied:
    the exception is raised and no message is returned; it is logged when
    it derives from [Exception]. *)
Theorem uses_before_failure_fails_call (messages : list Message) (st : HeadState P)
    (e : exn) :
  data_batch messages ->
  truthy_str (uses_before_address self) = true ->
  send_messages_once messages "uses_before" (connection_pool st) = Raise e ->
  e <> RuntimeTerminated ->
  Call self messages st
    = (Raise e, if logged_by_Call e then logger_error self e st else st).
Proof.
  intros Hb Hub Hm He. rewrite (call_data_batch messages st Hb).
  unfold _handle_data_requests, collect_worker_results. rewrite Hub.
  unfold bind, ret, gets, lift. rewrite Hm. now destruct e.
Qed.

End DataPlaneMore.

Lemma uses_after_reply_is_returned_witness :
  Call Samples.head_after [Samples.data_message "q" []]
    (Samples.state_of ∅ [Ok Samples.w2_reply; Ok Samples.w1_reply])
  = (Ok (Some Samples.after_reply),
     Samples.state_of ∅ [Ok Samples.w2_reply; Ok Samples.w1_reply]).
Proof.
  apply (uses_after_reply_is_returned Samples.head_after _ _
           [Samples.w2_reply; Samples.w1_reply]).
  - apply sample_data_batch.
  - reflexivity.
  - reflexivity.
  - reflexivity.
Defined.

Lemma local_merge_keeps_documents_witness :
  exists m,
    Call Samples.head [Samples.data_message "q" []]
      (Samples.state_of ∅ [Ok Samples.w2_reply; Ok Samples.w1_reply])
      = (Ok (Some m), Samples.state_of ∅ [Ok Samples.w2_reply; Ok Samples.w1_reply])
    /\ Permutation (docs_of m) (concat (map docs_of [Samples.w2_reply; Samples.w1_reply]))
    /\ length (docs_of m)
       = list_sum (map (fun r => length (docs_of r)) [Samples.w2_reply; Samples.w1_reply]).
Proof.
  apply (local_merge_keeps_documents Samples.head).
  - apply sample_data_batch.
  - reflexivity.
  - reflexivity.
  - cbn. lia.
  - repeat constructor; eexists; reflexivity.
Defined.

Lemma worker_failure_fails_call_witness :
  Call Samples.head [Samples.data_message "q" []]
    (Samples.state_of ∅ [Ok Samples.w2_reply; Raise (BaseExceptionOnly "CancelledError")])
  = (Raise (BaseExceptionOnly "CancelledError"),
     if logged_by_Call (BaseExceptionOnly "CancelledError")
     then logger_error Samples.head (BaseExceptionOnly "CancelledError")
            (Samples.state_of ∅
               [Ok Samples.w2_reply; Raise (BaseExceptionOnly "CancelledError")])
     else Samples.state_of ∅
            [Ok Samples.w2_reply; Raise (BaseExceptionOnly "CancelledError")]).
Proof.
  apply (worker_failure_fails_call Samples.head _ _ [Samples.w2_reply] _ []).
  - apply sample_data_batch.
  - reflexivity.
  - reflexivity.
  - discriminate.
Defined.

Lemma uses_before_failure_fails_call_witness :
  Call sample_head_before [Samples.data_message "q" []]
    (sample_state_failing_once (RpcError "UNAVAILABLE"))
  = (Raise (RpcError "UNAVAILABLE"),
     if logged_by_Call (RpcError "UNAVAILABLE")
     then logger_error sample_head_before (RpcError "UNAVAILABLE")
            (sample_state_failing_once (RpcError "UNAVAILABLE"))
     else sample_state_failing_once (RpcError "UNAVAILABLE")).
Proof.
  apply (uses_before_failure_fails_call sample_head_before).
  - apply sample_data_batch.
  - reflexivity.
  - reflexivity.
  - discriminate.
Defined.

(** ** The wait for readiness *)





(** X18.  An exception of the probe that is not an [RpcError] ends the
    wait: at the first poll at which the probe raises it, with the polls
    before it failed, the call raises it to its caller. *)
Theorem probe_exception_ends_wait (timeout : option number) (k fuel : nat)
    (shutdown_event : Z -> bool) (ctrl_address : string) (w : World) (e : exn) :
  (forall j, (j < k)%nat ->
     test_passes (timeout_ns_of timeout) (clock w)
       (test_world (timeout_ns_of timeout) ctrl_address (snd (time_ns w)) j) = true
     /\ poll_fails shutdown_event ctrl_address
          (poll_world (timeout_ns_of timeout) ctrl_address (snd (time_ns w)) j)) ->
  test_passes (timeout_ns_of timeout) (clock w)
    (test_world (timeout_ns_of timeout) ctrl_address (snd (time_ns w)) k) = true ->
  shutdown_event
    (clock (poll_world (timeout_ns_of timeout) ctrl_address (snd (time_ns w)) k)) = false ->
  probe ctrl_address (poll_world (timeout_ns_of timeout) ctrl_address (snd (time_ns w)) k)
    = Raise e ->
  is_RpcError e = false ->
  (k < fuel)%nat ->
  wait_for_ready_or_shutdown fuel timeout shutdown_event ctrl_address w
    = (Some (Raise e),
       snd (is_ready ctrl_address
              (poll_world (timeout_ns_of timeout) ctrl_address (snd (time_ns w)) k))).
Proof.
  intros Hbefore Hc Hset Hp He Hlt. unfold wait_for_ready_or_shutdown. cbn [time_ns snd].
  replace fuel with (k + S (fuel - S k))%nat by lia.
  rewrite (wait_loop_skip shutdown_event ctrl_address _ _ k _ _ Hbefore).
  now apply wait_loop_probe_raises.
Qed.


Lemma probe_exception_ends_wait_witness :
  wait_for_ready_or_shutdown 1 None Samples.never_set "10.0.0.1:9000" Samples.world_broken
    = (Some (Raise (OtherException "ValueError")),
       snd (is_ready "10.0.0.1:9000"
              (poll_world (timeout_ns_of None) "10.0.0.1:9000"
                 (snd (time_ns Samples.world_broken)) 0))).
Proof.
  apply (probe_exception_ends_wait None 0 1).
  - intros j Hj. lia.
  - reflexivity.
  - reflexivity.
  - reflexivity.
  - reflexivity.
  - lia.
Defined.
